(** * Points, Vectors and their Container: a shallow embedding

    The development follows the four Python modules of the repository:
    [point.py], [vector.py], [container.py] and (for the names only)
    [main.py].  The Python run time that the code leans on is modelled first:
    dynamically typed values, exceptions as an error monad, [int] and [float]
    numbers, [str], [float()], [re.match], [re.split], [json.dumps] and the
    binding of call arguments to parameters.  The classes come next, one
    Rocq [Module] per Python class, one definition per method, with the
    source's names.  The theorems are at the end of the file. *)

From Stdlib Require Import ZArith List String Ascii Bool Lia.
From Stdlib Require Import DecimalString DecimalZ DecimalPos.
From Stdlib Require Import Floats.SpecFloat.
Import ListNotations.

Set Warnings "-register-all".
Local Open Scope string_scope.
Local Open Scope Z_scope.

(** ** Values *)

(** A Python number is an [int] (unbounded) or a [float] (IEEE 754 binary64,
    here the Standard Library's [spec_float] at precision 53 and [emax] 1024).
    [bool], the third type that passes [isinstance(v, (float, int))], is left
    out of the value universe. *)
Inductive number : Type :=
| PyInt (n : Z)
| PyFloat (f : spec_float).

(** An instance of [Point] proper: its three coordinates.  They are written
    through [__setattr__] only, which lets nothing but numbers in; hence the
    typed fields. *)
Inductive point : Type :=
| MkPoint (x y z : number).

(** [Vector] is a subclass of [Point]: an instance has the coordinates of a
    Point (its [base] part, which the methods inherited through [super()]
    work on) and two end points.  An end point only has to pass
    [isinstance(value, Point)], so it may itself be a Vector.  Instances are
    modelled as values, not as references: none of the properties below
    depends on two names denoting one mutable object. *)
Inductive obj : Type :=
| ObjPoint (p : point)
| ObjVector (v : vector)
with vector : Type :=
| MkVector (base : point) (start_point end_point : obj).

(** The class objects themselves are values: a [classmethod] receives one as
    its first argument. *)
Inductive class : Type := cls_Point | cls_Vector | cls_Container.

(** The values that the code can be handed.  A [dict] keeps its insertion
    order, as in Python 3.7 and later; its keys are strings, which is all
    JSON and the code use.  A [Container] is a [list] subclass: its state is
    the list of its elements. *)
Inductive value : Type :=
| VNone
| VNum (n : number)
| VStr (s : string)
| VList (l : list value)
| VDict (d : list (string * value))
| VObj (o : obj)
| VContainer (l : list value)
| VClass (c : class).

(** ** Exceptions *)

Inductive exn_kind : Type :=
| ValueError | TypeError | AttributeError | KeyError | IndexError
| ZeroDivisionError | OverflowError | NameError.

(** The text of an exception raised by the code is kept as the pieces of its
    (f-)string: literal text, [str(v)] and [type(v)]. *)
Inductive fragment : Type :=
| Text (s : string)
| StrOf (v : value)
| TypeOf (v : value).

(** [Raised k msg] is raised by a [raise] statement of the code, [Builtin k]
    by the interpreter or the standard library (its text is not modelled). *)
Inductive exn : Type :=
| Raised (k : exn_kind) (msg : list fragment)
| Builtin (k : exn_kind).

Definition kind_of (e : exn) : exn_kind :=
  match e with Raised k _ => k | Builtin k => k end.

Inductive result (A : Type) : Type :=
| Ok (a : A)
| Raise (e : exn).
Arguments Ok {A} a.
Arguments Raise {A} e.

Definition bind {A B : Type} (r : result A) (k : A -> result B) : result B :=
  match r with
  | Ok a => k a
  | Raise e => Raise e
  end.

Notation "x <- r ;; k" := (bind r (fun x => k))
  (at level 61, r at next level, right associativity).
Notation "' p <- r ;; k" := (bind r (fun x => let p := x in k))
  (at level 61, p pattern, r at next level, right associativity).

Definition exn_kind_eqb (a b : exn_kind) : bool :=
  match a, b with
  | ValueError, ValueError | TypeError, TypeError
  | AttributeError, AttributeError | KeyError, KeyError
  | IndexError, IndexError
  | ZeroDivisionError, ZeroDivisionError | OverflowError, OverflowError
  | NameError, NameError => true
  | _, _ => false
  end.

(** [try: r except (k1, k2, ...) as exception: raise e from exception]. *)
Definition except_reraise {A : Type} (r : result A) (kinds : list exn_kind)
    (e : exn) : result A :=
  match r with
  | Ok a => Ok a
  | Raise e0 =>
      if existsb (exn_kind_eqb (kind_of e0)) kinds then Raise e else Raise e0
  end.

(** ** Numbers *)

Definition prec : Z := 53.
Definition emax : Z := 1024.

(** The float nearest to an integer (ties to even); infinite when the integer
    is beyond the range of binary64. *)
Definition float_of_Z (n : Z) : spec_float := binary_normalize prec emax n 0 false.

(** Implicit conversion of an [int] operand that meets a [float] operand:
    an integer too large for a float raises [OverflowError]. *)
Definition int_to_float (n : Z) : result spec_float :=
  match float_of_Z n with
  | S754_infinity _ => Raise (Builtin OverflowError)
  | f => Ok f
  end.

(** The float nearest to the rational [a / b] of two positive integers, with
    sign [s]. *)
Definition div_round (s : bool) (a b : positive) : spec_float :=
  let '(q, e, l) := SFdiv_core_binary prec emax (Zpos a) 0 (Zpos b) 0 in
  binary_round_aux prec emax s q e l.

Definition float_binop (op : spec_float -> spec_float -> spec_float)
    (intop : Z -> Z -> Z) (a b : number) : result number :=
  match a, b with
  | PyInt x, PyInt y => Ok (PyInt (intop x y))
  | PyFloat x, PyFloat y => Ok (PyFloat (op x y))
  | PyInt x, PyFloat y => fx <- int_to_float x ;; Ok (PyFloat (op fx y))
  | PyFloat x, PyInt y => fy <- int_to_float y ;; Ok (PyFloat (op x fy))
  end.

(** [a + b], [a - b], [a * b] on numbers. *)
Definition py_add : number -> number -> result number :=
  float_binop (SFadd prec emax) Z.add.
Definition py_sub : number -> number -> result number :=
  float_binop (SFsub prec emax) Z.sub.
Definition py_mul : number -> number -> result number :=
  float_binop (SFmul prec emax) Z.mul.

Definition float_is_zero (f : spec_float) : bool :=
  match f with S754_zero _ => true | _ => false end.

Definition float_truediv (x y : spec_float) : result number :=
  if float_is_zero y then Raise (Builtin ZeroDivisionError)
  else Ok (PyFloat (SFdiv prec emax x y)).

Definition is_neg (n : Z) : bool := n <? 0.

(** [a / b]: true division.  Two integers give the correctly rounded float
    of the quotient. *)
Definition py_truediv (a b : number) : result number :=
  match a, b with
  | PyInt x, PyInt y =>
      match y with
      | 0 => Raise (Builtin ZeroDivisionError)
      | _ =>
          match x with
          | 0 => Ok (PyFloat (S754_zero (is_neg y)))
          | _ =>
              match div_round (xorb (is_neg x) (is_neg y))
                      (Z.to_pos (Z.abs x)) (Z.to_pos (Z.abs y)) with
              | S754_infinity _ => Raise (Builtin OverflowError)
              | f => Ok (PyFloat f)
              end
          end
      end
  | PyFloat x, PyFloat y => float_truediv x y
  | PyInt x, PyFloat y => fx <- int_to_float x ;; float_truediv fx y
  | PyFloat x, PyInt y => fy <- int_to_float y ;; float_truediv x fy
  end.

(** An [int] and a [float] are compared by their exact values. *)
Definition int_float_eqb (n : Z) (f : spec_float) : bool :=
  match f with
  | S754_zero _ => n =? 0
  | S754_finite s m e =>
      let v := cond_Zopp s (Zpos m) in
      if 0 <=? e then n =? v * 2 ^ e else n * 2 ^ (- e) =? v
  | _ => false
  end.

(** [a == b] on numbers. *)
Definition num_eqb (a b : number) : bool :=
  match a, b with
  | PyInt x, PyInt y => x =? y
  | PyFloat x, PyFloat y => SFeqb x y
  | PyInt x, PyFloat y => int_float_eqb x y
  | PyFloat x, PyInt y => int_float_eqb y x
  end.

Definition num_neg (a : number) : number :=
  match a with
  | PyInt x => PyInt (- x)
  | PyFloat x => PyFloat (SFopp x)
  end.

(** ** Strings and numbers *)

(** A Python [str] is modelled as a Rocq [string]: a sequence of code points
    below 256. *)

Definition code (c : ascii) : N := N_of_ascii c.

Definition is_digit (c : ascii) : bool :=
  ((48 <=? code c) && (code c <=? 57))%N.

Definition digit_val (c : ascii) : Z := Z.of_N (code c) - 48.

(** [str(n)] for an [int]: decimal digits, with a leading minus sign when
    negative. *)
Definition str_of_Z (n : Z) : string := NilZero.string_of_int (Z.to_int n).

Fixpoint repeat_char (c : ascii) (n : nat) : string :=
  match n with
  | O => EmptyString
  | S k => String c (repeat_char c k)
  end.

Fixpoint string_rev_acc (s acc : string) : string :=
  match s with
  | EmptyString => acc
  | String c t => string_rev_acc t (String c acc)
  end.

Definition string_rev (s : string) : string := string_rev_acc s EmptyString.

(** *** [float(s)] on a string *)

(** White space as [float()] strips it from both ends. *)
Definition is_space (c : ascii) : bool :=
  let n := code c in
  (((9 <=? n) && (n <=? 13)) || (n =? 32) || (n =? 133) || (n =? 160))%N.

Fixpoint lstrip (s : string) : string :=
  match s with
  | String c t => if is_space c then lstrip t else s
  | EmptyString => EmptyString
  end.

Definition strip (s : string) : string :=
  string_rev (lstrip (string_rev (lstrip s))).

(** An underscore is accepted between two digits only; the accepted ones are
    dropped.  [prev] is the character before [s]. *)
Fixpoint drop_underscores (prev : option ascii) (s : string) : option string :=
  let after_digit :=
    match prev with Some p => is_digit p | None => false end in
  let after_underscore :=
    match prev with Some p => Ascii.eqb p "_" | None => false end in
  match s with
  | EmptyString => if after_underscore then None else Some EmptyString
  | String c t =>
      if Ascii.eqb c "_" then
        if after_digit then drop_underscores (Some c) t else None
      else if after_underscore && negb (is_digit c) then None
      else
        match drop_underscores (Some c) t with
        | Some r => Some (String c r)
        | None => None
        end
  end.

(** Upper-case ASCII letters to lower case. *)
Definition lower (c : ascii) : ascii :=
  if ((65 <=? code c) && (code c <=? 90))%N
  then ascii_of_N (code c + 32) else c.

Fixpoint lower_string (s : string) : string :=
  match s with
  | EmptyString => EmptyString
  | String c t => String (lower c) (lower_string t)
  end.

(** An optional sign: [true] for a minus sign. *)
Definition take_sign (s : string) : bool * string :=
  match s with
  | String c t =>
      if Ascii.eqb c "-" then (true, t)
      else if Ascii.eqb c "+" then (false, t)
      else (false, s)
  | EmptyString => (false, s)
  end.

(** The longest prefix of digits, as the number it denotes and its length,
    and what follows it. *)
Fixpoint take_digits (acc : Z) (len : nat) (s : string) : Z * nat * string :=
  match s with
  | String c t =>
      if is_digit c then take_digits (10 * acc + digit_val c) (S len) t
      else (acc, len, s)
  | EmptyString => (acc, len, s)
  end.

(** The float nearest to [m * 10 ^ e10], for [0 <= m], with sign [neg]. *)
Definition float_of_decimal (neg : bool) (m e10 : Z) : spec_float :=
  match m with
  | Zpos p =>
      if 0 <=? e10
      then binary_normalize prec emax (cond_Zopp neg (m * 10 ^ e10)) 0 false
      else div_round neg p (Z.to_pos (10 ^ (- e10)))
  | _ => S754_zero neg
  end.

(** The exponent part: [e] or [E], an optional sign and at least one digit,
    up to the end of the string; or nothing at all. *)
Definition parse_exponent (s : string) : option Z :=
  match s with
  | EmptyString => Some 0
  | String c t =>
      if Ascii.eqb (lower c) "e" then
        let '(neg, t1) := take_sign t in
        match take_digits 0 0 t1 with
        | (_, O, _) => None
        | (e, _, EmptyString) => Some (cond_Zopp neg e)
        | _ => None
        end
      else None
  end.

(** A decimal numeral: digits with an optional fractional part (at least one
    digit in all) and an optional exponent. *)
Definition parse_decimal (s : string) : option (Z * Z) :=
  let '(i, ni, s1) := take_digits 0 0 s in
  let '(m, nf, s2) :=
    match s1 with
    | String c t => if Ascii.eqb c "." then take_digits i 0 t else (i, O, s1)
    | EmptyString => (i, O, s1)
    end in
  match (ni + nf)%nat with
  | O => None
  | _ =>
      match parse_exponent s2 with
      | Some e => Some (m, e - Z.of_nat nf)
      | None => None
      end
  end.

Definition parse_inf_nan (neg : bool) (s : string) : option spec_float :=
  let l := lower_string s in
  if String.eqb l "inf" || String.eqb l "infinity" then Some (S754_infinity neg)
  else if String.eqb l "nan" then Some S754_nan
  else None.

(** [float(s)] for a [str] argument. *)
Definition float_of_str (s : string) : result spec_float :=
  match drop_underscores None (strip s) with
  | None => Raise (Builtin ValueError)
  | Some t =>
      let '(neg, u) := take_sign t in
      match parse_inf_nan neg u with
      | Some f => Ok f
      | None =>
          match parse_decimal u with
          | Some (m, e10) => Ok (float_of_decimal neg m e10)
          | None => Raise (Builtin ValueError)
          end
      end
  end.

(** *** [repr(f)] of a float *)

(** The number of decimal digits of a positive integer. *)
Definition ndigits10 (p : positive) : Z :=
  Z.of_nat (Decimal.nb_digits (Pos.to_uint p)).

(** [decimal_point num den] is the [k] with
    [10 ^ (k - 1) <= num / den < 10 ^ k]. *)
Definition decimal_point (num den : positive) : Z :=
  let k0 := ndigits10 num - ndigits10 den in
  let reaches :=
    if 0 <=? k0 then Zpos den * 10 ^ k0 <=? Zpos num
    else Zpos den <=? Zpos num * 10 ^ (- k0) in
  if reaches then k0 + 1 else k0.

(** Does the decimal [c * 10 ^ e10] read back as [f]? *)
Definition reads_back (f : spec_float) (c e10 : Z) : bool :=
  match f, float_of_decimal false c e10 with
  | S754_finite _ m e, S754_finite _ m' e' => (Pos.eqb m m' && (e =? e'))%bool
  | _, _ => false
  end.

(** The shortest decimal that reads back as the positive float [num / den],
    and among those of that length the one nearest to it: [(c, e10)] stands
    for [c * 10 ^ e10].  Candidates of [n] digits are tried for
    [n = 18 - fuel, ...]; seventeen digits always suffice. *)
Fixpoint shortest_decimal (f : spec_float) (num den : positive) (k : Z)
    (fuel : nat) (n : Z) : Z * Z :=
  let e10 := k - n in
  let scaled_num := if 0 <=? - e10 then Zpos num * 10 ^ (- e10) else Zpos num in
  let scaled_den := if 0 <=? - e10 then Zpos den else Zpos den * 10 ^ e10 in
  let lo := scaled_num / scaled_den in
  let r := scaled_num mod scaled_den in
  let hi := lo + 1 in
  let nearest := if 2 * r <? scaled_den then lo
                 else if scaled_den <? 2 * r then hi
                 else if Z.even lo then lo else hi in
  match fuel with
  | O => (nearest, e10)
  | S fuel' =>
      match reads_back f lo e10, reads_back f hi e10 with
      | true, true => (nearest, e10)
      | true, false => (lo, e10)
      | false, true => (hi, e10)
      | false, false => shortest_decimal f num den k fuel' (n + 1)
      end
  end.

Fixpoint strip_zeros_rev (s : string) (dropped : Z) : string * Z :=
  match s with
  | String c t =>
      if Ascii.eqb c "0" then strip_zeros_rev t (dropped + 1) else (s, dropped)
  | EmptyString => (s, dropped)
  end.

(** The digits of the shortest decimal, without trailing zeros, and the
    position of the decimal point relative to their start. *)
Definition repr_digits (f : spec_float) (m : positive) (e : Z) : string * Z :=
  let num := if 0 <=? e then Z.to_pos (Zpos m * 2 ^ e) else m in
  let den := if 0 <=? e then 1%positive else Z.to_pos (2 ^ (- e)) in
  let k := decimal_point num den in
  let '(c, e10) := shortest_decimal f num den k 16 1 in
  let all := str_of_Z c in
  let '(rev_digits, dropped) := strip_zeros_rev (string_rev all) 0 in
  (string_rev rev_digits, Z.of_nat (String.length all) + e10).

Fixpoint take_chars (n : nat) (s : string) : string :=
  match n, s with
  | S k, String c t => String c (take_chars k t)
  | _, _ => EmptyString
  end.

Fixpoint drop_chars (n : nat) (s : string) : string :=
  match n, s with
  | S k, String c t => drop_chars k t
  | _, _ => s
  end.

(** Positional notation when the decimal point falls in [(-4, 16]],
    exponent notation otherwise. *)
Definition format_repr (digits : string) (decpt : Z) : string :=
  let n := Z.of_nat (String.length digits) in
  if (-4 <? decpt) && (decpt <=? 16) then
    if decpt <=? 0 then "0." ++ repeat_char "0" (Z.to_nat (- decpt)) ++ digits
    else if n <=? decpt
    then digits ++ repeat_char "0" (Z.to_nat (decpt - n)) ++ ".0"
    else take_chars (Z.to_nat decpt) digits ++ "." ++
         drop_chars (Z.to_nat decpt) digits
  else
    let x := decpt - 1 in
    let ex := str_of_Z (Z.abs x) in
    take_chars 1 digits ++
    (if 1 <? n then "." ++ drop_chars 1 digits else "") ++
    "e" ++ (if x <? 0 then "-" else "+") ++
    (if Z.abs x <? 10 then "0" ++ ex else ex).

(** [repr(f)], which for a float is also [str(f)]. *)
Definition float_repr (f : spec_float) : string :=
  match f with
  | S754_nan => "nan"
  | S754_infinity s => if s then "-inf" else "inf"
  | S754_zero s => if s then "-0.0" else "0.0"
  | S754_finite s m e =>
      let '(digits, decpt) := repr_digits f m e in
      (if s then "-" else "") ++ format_repr digits decpt
  end.

(** [str(n)] of a number. *)
Definition str_of_number (n : number) : string :=
  match n with
  | PyInt k => str_of_Z k
  | PyFloat f => float_repr f
  end.

(** ** Regular expressions: [re.match] and [re.split] *)

(** An item of a character set [[...]]. *)
Inductive class_item : Type :=
| One (c : ascii)
| Range (lo hi : ascii).

Definition in_item (c : ascii) (i : class_item) : bool :=
  match i with
  | One d => Ascii.eqb c d
  | Range lo hi => ((code lo <=? code c) && (code c <=? code hi))%N
  end.

Definition in_set (items : list class_item) (c : ascii) : bool :=
  existsb (in_item c) items.

Inductive regex : Type :=
| Void                                  (* matches nothing *)
| Eps                                   (* the empty string *)
| CharSet (items : list class_item)     (* one character of the set *)
| Seq (r1 r2 : regex)
| Alt (r1 r2 : regex)
| Star (r : regex).

Definition Lit (c : ascii) : regex := CharSet [One c].
Definition Opt (r : regex) : regex := Alt r Eps.       (* r? *)
Definition Plus (r : regex) : regex := Seq r (Star r). (* r+ *)

Fixpoint nullable (r : regex) : bool :=
  match r with
  | Void => false
  | Eps => true
  | CharSet _ => false
  | Seq r1 r2 => nullable r1 && nullable r2
  | Alt r1 r2 => nullable r1 || nullable r2
  | Star _ => true
  end.

(** The derivative of [r] by the character [c]. *)
Fixpoint deriv (c : ascii) (r : regex) : regex :=
  match r with
  | Void => Void
  | Eps => Void
  | CharSet items => if in_set items c then Eps else Void
  | Seq r1 r2 =>
      if nullable r1
      then Alt (Seq (deriv c r1) r2) (deriv c r2)
      else Seq (deriv c r1) r2
  | Alt r1 r2 => Alt (deriv c r1) (deriv c r2)
  | Star r1 => Seq (deriv c r1) (Star r1)
  end.

(** [re.match(r, s)] is a match object (true) exactly when some prefix of [s]
    matches [r]: the pattern is anchored at the start of the string only. *)
Fixpoint re_match (r : regex) (s : string) : bool :=
  nullable r ||
  match s with
  | EmptyString => false
  | String c t => re_match (deriv c r) t
  end.

(** [re.split] for a pattern that is a single character set: the string is
    cut at every character of the set. *)
Fixpoint re_split (seps : list class_item) (s : string) : list string :=
  match s with
  | EmptyString => [EmptyString]
  | String c t =>
      if in_set seps c then EmptyString :: re_split seps t
      else
        match re_split seps t with
        | piece :: rest => String c piece :: rest
        | [] => [String c EmptyString]
        end
  end.

(** [s.split(sep)] for a one-character separator is the same cutting. *)
Definition str_split (sep : ascii) (s : string) : list string :=
  re_split [One sep] s.

Definition nonempty (s : string) : bool :=
  match s with EmptyString => false | _ => true end.

(** ** Dynamic typing *)

(** [isinstance(v, (float, int))]. *)
Definition is_number (v : value) : bool :=
  match v with VNum _ => true | _ => false end.

(** [isinstance(v, Point)]: a Vector is a Point. *)
Definition is_Point (v : value) : bool :=
  match v with VObj _ => true | _ => false end.

(** [isinstance(v, Vector)]. *)
Definition is_Vector (v : value) : bool :=
  match v with VObj (ObjVector _) => true | _ => false end.

Definition is_None (v : value) : bool :=
  match v with VNone => true | _ => false end.

(** Truth value of [v], as tested by [if v:] and [filter(None, ...)]. *)
Definition truthy (v : value) : bool :=
  match v with
  | VNone => false
  | VNum (PyInt n) => negb (n =? 0)
  | VNum (PyFloat f) => negb (float_is_zero f)
  | VStr s => nonempty s
  | VList l => match l with [] => false | _ => true end
  | VDict d => match d with [] => false | _ => true end
  | VObj _ => true
  | VContainer l => match l with [] => false | _ => true end
  | VClass _ => true
  end.

Inductive coord : Type := X | Y | Z_.

Definition point_coord (p : point) (c : coord) : number :=
  match p, c with
  | MkPoint x _ _, X => x
  | MkPoint _ y _, Y => y
  | MkPoint _ _ z, Z_ => z
  end.

Definition base_of (v : vector) : point :=
  match v with MkVector b _ _ => b end.
Definition start_point_of (v : vector) : obj :=
  match v with MkVector _ s _ => s end.
Definition end_point_of (v : vector) : obj :=
  match v with MkVector _ _ e => e end.

(** Every instance of [Point], a Vector included, has the coordinates. *)
Definition as_point (o : obj) : point :=
  match o with
  | ObjPoint p => p
  | ObjVector v => base_of v
  end.

Definition coord_of (o : obj) (c : coord) : number := point_coord (as_point o) c.

(** [v.x], [v.y], [v.z]: only instances of Point have them. *)
Definition getattr_coord (v : value) (c : coord) : result number :=
  match v with
  | VObj o => Ok (coord_of o c)
  | _ => Raise (Builtin AttributeError)
  end.

Fixpoint lookup (k : string) (d : list (string * value)) : option value :=
  match d with
  | [] => None
  | (k', v) :: rest => if String.eqb k k' then Some v else lookup k rest
  end.

(** [v[k]] for a string key. *)
Definition subscript (v : value) (k : string) : result value :=
  match v with
  | VDict d =>
      match lookup k d with
      | Some x => Ok x
      | None => Raise (Builtin KeyError)
      end
  | _ => Raise (Builtin TypeError)
  end.

(** [float(v)]. *)
Definition py_float (v : value) : result number :=
  match v with
  | VNum (PyInt n) => f <- int_to_float n ;; Ok (PyFloat f)
  | VNum (PyFloat f) => Ok (PyFloat f)
  | VStr s => f <- float_of_str s ;; Ok (PyFloat f)
  | _ => Raise (Builtin TypeError)
  end.

(** Unary minus [-v]: numbers have it; neither [Point] nor [Vector] defines
    [__neg__], and no other value of the universe supports it. *)
Definition py_neg (v : value) : result value :=
  match v with
  | VNum n => Ok (VNum (num_neg n))
  | _ => Raise (Builtin TypeError)
  end.

(** ** [json.dumps] *)

Definition hex_digit (n : N) : ascii :=
  if (n <? 10)%N then ascii_of_N (48 + n) else ascii_of_N (87 + n).

Definition dquote : ascii := ascii_of_N 34.
Definition backslash : ascii := ascii_of_N 92.

(** [escaped c] is a backslash followed by [c]. *)
Definition escaped (c : string) : string := String backslash c.

(** One character inside a JSON string, with [ensure_ascii] on (the
    default): everything outside the printable ASCII range is escaped. *)
Definition json_escape_char (c : ascii) : string :=
  let n := code c in
  if (n =? 34)%N then escaped (String dquote EmptyString)
  else if (n =? 92)%N then escaped (String backslash EmptyString)
  else if (n =? 10)%N then escaped "n"
  else if (n =? 13)%N then escaped "r"
  else if (n =? 9)%N then escaped "t"
  else if (n =? 8)%N then escaped "b"
  else if (n =? 12)%N then escaped "f"
  else if ((32 <=? n) && (n <=? 126))%N then String c EmptyString
  else escaped ("u00" ++
         String (hex_digit (n / 16)) (String (hex_digit (n mod 16)) EmptyString)).

Fixpoint json_escape (s : string) : string :=
  match s with
  | EmptyString => EmptyString
  | String c t => json_escape_char c ++ json_escape t
  end.

Definition json_string (s : string) : string :=
  String dquote (json_escape s ++ String dquote EmptyString).

Definition json_number (n : number) : string :=
  match n with
  | PyInt k => str_of_Z k
  | PyFloat S754_nan => "NaN"
  | PyFloat (S754_infinity s) => if s then "-Infinity" else "Infinity"
  | PyFloat f => float_repr f
  end.

(** Items joined by a comma and a space, the default item separator. *)
Fixpoint join_items (items : list string) : string :=
  match items with
  | [] => ""
  | [a] => a
  | a :: rest => a ++ ", " ++ join_items rest
  end.

Fixpoint sequence {A : Type} (l : list (result A)) : result (list A) :=
  match l with
  | [] => Ok []
  | r :: rest => a <- r ;; t <- sequence rest ;; Ok (a :: t)
  end.

(** [json.dumps(v)] with the default separators: a comma and a space
    between items, a colon and a space between a key and its value. *)
Fixpoint json_dumps (v : value) : result string :=
  let dump_list l :=
    items <- sequence (map json_dumps l) ;;
    Ok ("[" ++ join_items items ++ "]") in
  match v with
  | VNone => Ok "null"
  | VNum n => Ok (json_number n)
  | VStr s => Ok (json_string s)
  | VList l => dump_list l
  | VContainer l => dump_list l
  | VDict d =>
      items <- sequence
        (map (fun kv => s <- json_dumps (snd kv) ;;
                        Ok (json_string (fst kv) ++ ": " ++ s)) d) ;;
      Ok ("{" ++ join_items items ++ "}")
  | VObj _ => Raise (Builtin TypeError)
  | VClass _ => Raise (Builtin TypeError)
  end.

(** ** Calls *)

(** A parameter of a [def]: its name and its default value, if any. *)
Record param : Type := { pname : string; pdefault : option value }.

Definition required (name : string) : param :=
  {| pname := name; pdefault := None |}.
Definition optional (name : string) (default : value) : param :=
  {| pname := name; pdefault := Some default |}.

(** A function: its parameters and its body on the bound arguments. *)
Record pyfun (A : Type) : Type :=
  { params : list param; body : list value -> result A }.
Arguments params {A} p.
Arguments body {A} p.

Definition has_key (k : string) (kw : list (string * value)) : bool :=
  existsb (fun kv => String.eqb k (fst kv)) kw.

(** The parameters left after the positional arguments get their values
    from the keyword arguments or from their defaults. *)
Fixpoint bind_rest (ps : list param) (kw : list (string * value))
    : result (list value) :=
  match ps with
  | [] => Ok []
  | p :: ps' =>
      match lookup (pname p) kw, pdefault p with
      | Some v, _ | None, Some v =>
          vs <- bind_rest ps' kw ;; Ok (v :: vs)
      | None, None => Raise (Builtin TypeError)
      end
  end.

Fixpoint bind_args (ps : list param) (args : list value)
    (kw : list (string * value)) : result (list value) :=
  match args, ps with
  | [], _ =>
      if forallb (fun kv => existsb (fun p => String.eqb (fst kv) (pname p)) ps) kw
      then bind_rest ps kw
      else Raise (Builtin TypeError)
  | _ :: _, [] => Raise (Builtin TypeError)
  | a :: args', p :: ps' =>
      if has_key (pname p) kw then Raise (Builtin TypeError)
      else vs <- bind_args ps' args' kw ;; Ok (a :: vs)
  end.

(** A call of [f] with positional and keyword arguments: too many arguments, a missing one, an unknown keyword
    or a parameter given twice raise [TypeError]. *)
Definition call {A : Type} (f : pyfun A) (args : list value)
    (kw : list (string * value)) : result A :=
  vs <- bind_args (params f) args kw ;; body f vs.

(** A call [C.f(...)] of a function wrapped by [@classmethod]: the class
    is passed as the first positional argument, whatever the first parameter
    is called. *)
Definition call_classmethod {A : Type} (c : class) (f : pyfun A)
    (args : list value) (kw : list (string * value)) : result A :=
  call f (VClass c :: args) kw.

(** * point.py *)

(** One coordinate as the pattern spells it: an optional sign, optionally
    digits and a dot, and at least one digit. *)
Definition digit : regex := CharSet [Range "0" "9"].
Definition NUM : regex :=
  Seq (Opt (CharSet [One "+"; One "-"]))
      (Seq (Opt (Seq (Star digit) (CharSet [One "."]))) (Plus digit)).

(** [POINT_REGEX]: three coordinates between parentheses, separated by
    semicolons. *)
Definition POINT_REGEX : regex :=
  Seq (Lit "(") (Seq NUM (Seq (Lit ";") (Seq NUM (Seq (Lit ";")
      (Seq NUM (Lit ")")))))).

(** [POINT_SPLITTERS]: the set of the two parentheses and the semicolon. *)
Definition POINT_SPLITTERS : list class_item := [One "("; One ";"; One ")"].

Definition coord_of_name (name : string) : option coord :=
  if String.eqb name "x" then Some X
  else if String.eqb name "y" then Some Y
  else if String.eqb name "z" then Some Z_
  else None.

Definition set_coord (p : point) (c : coord) (n : number) : point :=
  match p, c with
  | MkPoint _ y z, X => MkPoint n y z
  | MkPoint x _ z, Y => MkPoint x n z
  | MkPoint x y _, Z_ => MkPoint x y n
  end.

(** The instance methods of [Point]. *)
Module Point.

(** [if not isinstance(value, (float, int)): raise ValueError(...)]. *)
Definition check_coordinate (value : value) : result number :=
  match value with
  | VNum n => Ok n
  | _ => Raise (Raised ValueError [Text "Illegal coordinate: "; StrOf value])
  end.

(** [Point(x, y, z)]: the three values are checked in turn, then stored. *)
Definition __init__ (x y z : value) : result point :=
  x' <- check_coordinate x ;;
  y' <- check_coordinate y ;;
  z' <- check_coordinate z ;;
  Ok (MkPoint x' y' z').

(** [Point(...)]: the call of the class. *)
Definition new (args : list value) (kw : list (string * value))
    : result value :=
  call {| params := [required "x"; required "y"; required "z"];
          body := fun vs =>
            match vs with
            | [x; y; z] => p <- __init__ x y z ;; Ok (VObj (ObjPoint p))
            | _ => Raise (Builtin TypeError)
            end |} args kw.

(** [self.name = value]. *)
Definition __setattr__ (self : point) (name : string) (value : value)
    : result point :=
  match coord_of_name name with
  | None =>
      Raise (Raised AttributeError
               [Text "Point has no attribute "; StrOf (VStr name)])
  | Some c =>
      n <- check_coordinate value ;;
      Ok (set_coord self c n)
  end.

(** [self.__eq__(other)]. *)
Definition __eq__ (self : point) (other : value) : bool :=
  match other with
  | VObj o =>
      num_eqb (point_coord self X) (coord_of o X) &&
      num_eqb (point_coord self Y) (coord_of o Y) &&
      num_eqb (point_coord self Z_) (coord_of o Z_)
  | _ => false
  end.

Definition __str__ (self : point) : string :=
  "(" ++ str_of_number (point_coord self X) ++ ";" ++
  str_of_number (point_coord self Y) ++ ";" ++
  str_of_number (point_coord self Z_) ++ ")".

Definition __repr__ (self : point) : string := __str__ self.

(** [self.to_json(to_dict)]: a [dict], or its [json.dumps] string. *)
Definition to_json (self : point) (to_dict : bool) : result value :=
  let json_dict := VDict [("x", VNum (point_coord self X));
                          ("y", VNum (point_coord self Y));
                          ("z", VNum (point_coord self Z_));
                          ("type", VStr "Point")] in
  if to_dict then Ok json_dict
  else s <- json_dumps json_dict ;; Ok (VStr s).

End Point.

(** * vector.py *)

(** The default value of the parameter [start_point] of [Vector.__init__]:
    [Point(0, 0, 0)], evaluated once, when the function is defined. *)
Definition default_start_point : obj :=
  ObjPoint (MkPoint (PyInt 0) (PyInt 0) (PyInt 0)).

(** The instance methods of [Vector]. *)
Module Vector.

(** [if not isinstance(value, Point): raise ValueError(...)], the check
    of [__setattr__] before [start_point] or [end_point] is stored. *)
Definition check_Point (value : value) : result obj :=
  match value with
  | VObj o => Ok o
  | _ => Raise (Raised ValueError [Text "Illegal Point: "; StrOf value])
  end.

(** [a.c + b] and [a.c - b.c] for a coordinate [c]. *)
Definition coord_plus (a : value) (c : coord) (b : number) : result value :=
  ac <- getattr_coord a c ;; s <- py_add ac b ;; Ok (VNum s).
Definition coord_minus (a b : value) (c : coord) : result value :=
  ac <- getattr_coord a c ;; bc <- getattr_coord b c ;;
  d <- py_sub ac bc ;; Ok (VNum d).

(** [Vector(x, y, z, start_point, end_point)], every parameter bound. *)
Definition __init__ (x y z start_point end_point : value) : result vector :=
  if is_None end_point then
    if is_None x || is_None y || is_None z then
      Raise (Raised ValueError [Text "Can't create a Vector from provided args"])
    else
      base <- Point.__init__ x y z ;;
      ex <- coord_plus start_point X (point_coord base X) ;;
      ey <- coord_plus start_point Y (point_coord base Y) ;;
      ez <- coord_plus start_point Z_ (point_coord base Z_) ;;
      e <- Point.__init__ ex ey ez ;;
      e' <- check_Point (VObj (ObjPoint e)) ;;
      s' <- check_Point start_point ;;
      Ok (MkVector base s' e')
  else
    dx <- coord_minus end_point start_point X ;;
    dy <- coord_minus end_point start_point Y ;;
    dz <- coord_minus end_point start_point Z_ ;;
    base <- Point.__init__ dx dy dz ;;
    s' <- check_Point start_point ;;
    e' <- check_Point end_point ;;
    Ok (MkVector base s' e').

(** The parameters of [__init__] after [self], with their defaults. *)
Definition __init___params : list param :=
  [optional "x" VNone; optional "y" VNone; optional "z" VNone;
   optional "start_point" (VObj default_start_point);
   optional "end_point" VNone].

(** [Vector(...)]: the call of the class. *)
Definition new (args : list value) (kw : list (string * value))
    : result value :=
  call {| params := __init___params;
          body := fun vs =>
            match vs with
            | [x; y; z; s; e] =>
                v <- __init__ x y z s e ;; Ok (VObj (ObjVector v))
            | _ => Raise (Builtin TypeError)
            end |} args kw.

(** [self.name = value]. *)
Definition __setattr__ (self : vector) (name : string) (value : value)
    : result vector :=
  match self with
  | MkVector base s e =>
      if String.eqb name "x" || String.eqb name "y" || String.eqb name "z" then
        base' <- Point.__setattr__ base name value ;;
        Ok (MkVector base' s e)
      else if String.eqb name "start_point" then
        s' <- check_Point value ;; Ok (MkVector base s' e)
      else if String.eqb name "end_point" then
        e' <- check_Point value ;; Ok (MkVector base s e')
      else
        Raise (Raised AttributeError
                 [Text "Vector has no attribute: "; StrOf (VStr name)])
  end.

Definition vx (self : vector) : number := point_coord (base_of self) X.
Definition vy (self : vector) : number := point_coord (base_of self) Y.
Definition vz (self : vector) : number := point_coord (base_of self) Z_.

(** [self * other]: scaling by a number, or the scalar product. *)
Definition __mul__ (self : vector) (other : value) : result value :=
  match other with
  | VNum k =>
      x <- py_mul (vx self) k ;;
      y <- py_mul (vy self) k ;;
      z <- py_mul (vz self) k ;;
      new [VNum x; VNum y; VNum z]
          [("start_point", VObj (start_point_of self))]
  | VObj (ObjVector o) =>
      xx <- py_mul (vx self) (vx o) ;;
      yy <- py_mul (vy self) (vy o) ;;
      s <- py_add xx yy ;;
      zz <- py_mul (vz self) (vz o) ;;
      r <- py_add s zz ;;
      Ok (VNum r)
  | _ =>
      Raise (Raised ValueError
               [Text "Can't multiply Vector by "; TypeOf other])
  end.

(** [self + other]. *)
Definition __add__ (self : vector) (other : value) : result value :=
  match other with
  | VObj (ObjVector o) =>
      x <- py_add (vx self) (vx o) ;;
      y <- py_add (vy self) (vy o) ;;
      z <- py_add (vz self) (vz o) ;;
      new [VNum x; VNum y; VNum z]
          [("start_point", VObj (start_point_of self))]
  | _ =>
      Raise (Raised ValueError
               [Text "Can't add "; TypeOf other; Text " to Vector"])
  end.

(** [self - other]: after the type check, [return self + -other]. *)
Definition __sub__ (self : vector) (other : value) : result value :=
  if negb (is_Vector other) then
    Raise (Raised ValueError
             [Text "Can't substract "; TypeOf other; Text " from Vector"])
  else
    negated <- py_neg other ;;
    __add__ self negated.

(** [self.__eq__(other)], together with the operator [a == b] on two
    instances, which it uses on the end points.  For a Point [a] and a
    Vector [b] the operator asks the subclass first: it evaluates
    [b.__eq__(a)], which is [False] since [a] is not a Vector. *)
Fixpoint __eq__ (self : vector) (other : value) : bool :=
  match other with
  | VObj (ObjVector o) =>
      match self, o with
      | MkVector _ s e, MkVector _ s' e' => eq_op s s' && eq_op e e'
      end
  | _ => false
  end
with eq_op (a b : obj) : bool :=
  match a with
  | ObjPoint p =>
      match b with
      | ObjPoint _ => Point.__eq__ p (VObj b)
      | ObjVector _ => false
      end
  | ObjVector v => __eq__ v (VObj b)
  end.

(** [str(self)], together with [str(o)] for any instance [o]. *)
Fixpoint __str__ (self : vector) : string :=
  match self with
  | MkVector _ s e => str s ++ ":" ++ str e
  end
with str (o : obj) : string :=
  match o with
  | ObjPoint p => Point.__str__ p
  | ObjVector v => __str__ v
  end.

Definition __repr__ (self : vector) : string := __str__ self.

(** The [dict] built by [to_json], together with [o.to_json(True)] for any
    instance [o]. *)
Fixpoint json_dict (self : vector) : result value :=
  match self with
  | MkVector base s e =>
      sd <- to_json_True s ;;
      ed <- to_json_True e ;;
      Ok (VDict [("start_point", sd);
                 ("end_point", ed);
                 ("x", VNum (point_coord base X));
                 ("y", VNum (point_coord base Y));
                 ("z", VNum (point_coord base Z_));
                 ("type", VStr "Vector")])
  end
with to_json_True (o : obj) : result value :=
  match o with
  | ObjPoint p => Point.to_json p true
  | ObjVector v => json_dict v
  end.

(** [self.to_json(to_dict)]. *)
Definition to_json (self : vector) (to_dict : bool) : result value :=
  d <- json_dict self ;;
  if to_dict then Ok d
  else s <- json_dumps d ;; Ok (VStr s).

End Vector.

(** * container.py *)

(** The methods of [Container], a [list] subclass; [self] is the list of
    the elements.  A method that changes the list returns the list after the
    call together with the outcome of the call.  The three overriding
    methods carry the marker [@override], which returns the function it
    decorates as it is ([typing.override]); container.py names it without
    importing it. *)
Module Container.

(** [Container(e1, e2, ...)]. *)
Definition __init__ (elements : list value) : list value :=
  let approved_elements :=
    filter (fun el => is_Vector el || is_Point el) elements in
  let approved_elements :=
    fold_left (fun approved arg =>
                 if is_Point arg || is_Vector arg
                 then (approved ++ [arg])%list else approved)
              elements approved_elements in
  approved_elements.

(** The call of the class: it takes no keyword argument. *)
Definition new (args : list value) (kw : list (string * value))
    : result value :=
  match kw with
  | [] => Ok (VContainer (__init__ args))
  | _ => Raise (Builtin TypeError)
  end.

Definition append (self : list value) (element : value)
    : list value * result value :=
  if negb (is_Vector element || is_Point element) then
    (self, Raise (Raised ValueError
                    [Text "Can only add Vector or Point to Container"]))
  else ((self ++ [element])%list, Ok VNone).




(** [element.to_json(True)]: only the instances of Point have the
    method. *)
Definition element_to_json (element : value) : result value :=
  match element with
  | VObj o => Vector.to_json_True o
  | _ => Raise (Builtin AttributeError)
  end.

Definition to_json (self : list value) (to_dict : bool) : result value :=
  elements <- sequence (map element_to_json self) ;;
  let json_dict := VDict [("elements", VList elements);
                          ("type", VStr "Container")] in
  if to_dict then Ok json_dict
  else s <- json_dumps json_dict ;; Ok (VStr s).

End Container.

(** * The class methods *)

(** [f(...)] for a value [f]: of the values of the universe only the classes
    can be called. *)
Definition call_value (f : value) (args : list value)
    (kw : list (string * value)) : result value :=
  match f with
  | VClass cls_Point => Point.new args kw
  | VClass cls_Vector => Vector.new args kw
  | VClass cls_Container => Container.new args kw
  | _ => Raise (Builtin TypeError)
  end.

(** [for element in v]: the items of a list, the keys of a dict, the
    characters of a string. *)
Fixpoint chars (s : string) : list value :=
  match s with
  | EmptyString => []
  | String c t => VStr (String c EmptyString) :: chars t
  end.

Definition iterate (v : value) : result (list value) :=
  match v with
  | VList l | VContainer l => Ok l
  | VDict d => Ok (map (fun kv => VStr (fst kv)) d)
  | VStr s => Ok (chars s)
  | _ => Raise (Builtin TypeError)
  end.

(** [v == s] for a string literal [s]. *)
Definition is_str (v : value) (s : string) : bool :=
  match v with VStr t => String.eqb t s | _ => false end.

(** ** [json.loads] *)

Section JsonLoads.

(** The JSON parser of the standard library on a string. *)
Variable json_decode : string -> result value.

(** [json.loads(v)]. *)
Definition json_loads (v : value) : result value :=
  match v with
  | VStr s => json_decode s
  | _ => Raise (Builtin TypeError)
  end.

(** [if json_string: json_dict = json.loads(json_string)] followed by
    [if not json_dict: raise ValueError(msg)]. *)
Definition load_json_dict (json_string json_dict : value) (msg : string)
    : result value :=
  json_dict <- (if truthy json_string then json_loads json_string
                else Ok json_dict) ;;
  if negb (truthy json_dict) then Raise (Raised ValueError [Text msg])
  else Ok json_dict.

End JsonLoads.

(** The functions wrapped by [@classmethod], each with the parameters of
    its [def] in their order: the class comes in as the first one.  They are
    gathered here, after the three classes, because [cls(...)] may call any
    of them.  The functions that read JSON take the parser of the standard
    library as [json_decode]. *)
Module ClassMethods.

Module Point.

Definition from_str (cls string : value) : result value :=
  match string with
  | VStr s =>
      if negb (re_match POINT_REGEX s) then
        Raise (Raised ValueError [Text "Illegal Point string format"])
      else
        match filter nonempty (re_split POINT_SPLITTERS s) with
        | [x; y; z] =>
            fx <- py_float (VStr x) ;;
            fy <- py_float (VStr y) ;;
            fz <- py_float (VStr z) ;;
            call_value cls [VNum fx; VNum fy; VNum fz] []
        | _ => Raise (Builtin ValueError)
        end
  | _ => Raise (Builtin TypeError)
  end.

Definition from_str_def : pyfun value :=
  {| params := [required "cls"; required "string"];
     body := fun vs =>
       match vs with
       | [cls; string] => from_str cls string
       | _ => Raise (Builtin TypeError)
       end |}.

Section Json.
Variable json_decode : string -> result value.

Definition from_json (cls json_string json_dict : value)
    : result value :=
  json_dict <- load_json_dict json_decode json_string json_dict
                 "Illegal Point JSON format" ;;
  xyz <- except_reraise
           (x <- (v <- subscript json_dict "x" ;; py_float v) ;;
            y <- (v <- subscript json_dict "y" ;; py_float v) ;;
            z <- (v <- subscript json_dict "z" ;; py_float v) ;;
            Ok [VNum x; VNum y; VNum z])
           [KeyError; ValueError]
           (Raised ValueError [Text "Illegal Point JSON format"]) ;;
  call_value cls xyz [].

Definition from_json_def : pyfun value :=
  {| params := [required "cls"; optional "json_string" VNone;
                optional "json_dict" VNone];
     body := fun vs =>
       match vs with
       | [cls; json_string; json_dict] =>
           from_json cls json_string json_dict
       | _ => Raise (Builtin TypeError)
       end |}.
End Json.

End Point.

Module Vector.

Definition from_str (cls string : value) : result value :=
  match string with
  | VStr s =>
      points <- except_reraise
        (match str_split ":" s with
         | [start_string; end_string] =>
             start_point <- call_classmethod cls_Point Point.from_str_def
                              [VStr start_string] [] ;;
             end_point <- call_classmethod cls_Point Point.from_str_def
                            [VStr end_string] [] ;;
             Ok (start_point, end_point)
         | _ => Raise (Builtin ValueError)
         end)
        [IndexError; ValueError]
        (Raised ValueError [Text "Illegal Vector string format"]) ;;
      call_value cls [] [("start_point", fst points);
                         ("end_point", snd points)]
  | _ => Raise (Builtin AttributeError)
  end.

Definition from_str_def : pyfun value :=
  {| params := [required "cls"; required "string"];
     body := fun vs =>
       match vs with
       | [cls; string] => from_str cls string
       | _ => Raise (Builtin TypeError)
       end |}.

Section Json.
Variable json_decode : string -> result value.

(** The [def] has no parameter [cls]: the class is bound to
    [json_string], and the name [cls] of the last line is not
    defined. *)
Definition from_json (json_string json_dict : value) : result value :=
  json_dict <- load_json_dict json_decode json_string json_dict
                 "Illegal Vector JSON format" ;;
  points <- except_reraise
    (start_dict <- subscript json_dict "start_point" ;;
     start_point <- call_classmethod cls_Point
                      (Point.from_json_def json_decode)
                      [] [("json_dict", start_dict)] ;;
     end_dict <- subscript json_dict "end_point" ;;
     end_point <- call_classmethod cls_Point
                    (Point.from_json_def json_decode)
                    [] [("json_dict", end_dict)] ;;
     Ok (start_point, end_point))
    [KeyError; ValueError]
    (Raised ValueError [Text "Illegal Vector JSON format"]) ;;
  Raise (Builtin NameError).

Definition from_json_def : pyfun value :=
  {| params := [optional "json_string" VNone;
                optional "json_dict" VNone];
     body := fun vs =>
       match vs with
       | [json_string; json_dict] => from_json json_string json_dict
       | _ => Raise (Builtin TypeError)
       end |}.
End Json.

Definition cross (cls first second : value) : result value :=
  match first, second with
  | VObj (ObjVector f), VObj (ObjVector s) =>
      x <- (a <- py_mul (Vector.vy f) (Vector.vz s) ;;
            b <- py_mul (Vector.vz f) (Vector.vy s) ;; py_sub a b) ;;
      y <- (a <- py_mul (Vector.vx f) (Vector.vz s) ;;
            b <- py_mul (Vector.vz f) (Vector.vx s) ;; py_sub a b) ;;
      z <- (a <- py_mul (Vector.vx f) (Vector.vy s) ;;
            b <- py_mul (Vector.vy f) (Vector.vx s) ;; py_sub a b) ;;
      call_value cls [VNum x; VNum y; VNum z]
                 [("start_point", VObj (start_point_of f))]
  | _, _ =>
      Raise (Raised ValueError
               [Text "Can't find cross-product of non-vectors"])
  end.

Definition cross_def : pyfun value :=
  {| params := [required "cls"; required "first"; required "second"];
     body := fun vs =>
       match vs with
       | [cls; first; second] => cross cls first second
       | _ => Raise (Builtin TypeError)
       end |}.

(** [cls.cross(first, second) * third]: of the three classes only
    [Vector] has an attribute [cross], and the product of a Vector is
    its [__mul__]. *)
Definition mixed (cls first second third : value) : result value :=
  product <- match cls with
             | VClass cls_Vector =>
                 call_classmethod cls_Vector cross_def [first; second] []
             | _ => Raise (Builtin AttributeError)
             end ;;
  match product with
  | VObj (ObjVector v) => Vector.__mul__ v third
  | _ => Raise (Builtin TypeError)
  end.

Definition mixed_def : pyfun value :=
  {| params := [required "cls"; required "first"; required "second";
                required "third"];
     body := fun vs =>
       match vs with
       | [cls; first; second; third] => mixed cls first second third
       | _ => Raise (Builtin TypeError)
       end |}.

(** The [def] has no parameter [cls] either.  The chained comparison
    [a == b == c] is [a == b and b == c]: the third quotient is
    computed only when the first two are equal. *)
Definition collinear (first second : value) : result bool :=
  match first, second with
  | VObj (ObjVector f), VObj (ObjVector s) =>
      a <- py_truediv (Vector.vx f) (Vector.vx s) ;;
      b <- py_truediv (Vector.vy f) (Vector.vy s) ;;
      if negb (num_eqb a b) then Ok false
      else
        c <- py_truediv (Vector.vz f) (Vector.vz s) ;;
        Ok (num_eqb b c)
  | _, _ =>
      Raise (Raised ValueError
               [Text "Can't check if non-vectors are collinear"])
  end.

Definition collinear_def : pyfun bool :=
  {| params := [required "first"; required "second"];
     body := fun vs =>
       match vs with
       | [first; second] => collinear first second
       | _ => Raise (Builtin TypeError)
       end |}.

End Vector.

Module Container.

Section Json.
Variable json_decode : string -> result value.

(** One turn of the loop over the elements. *)
Definition from_json_element (element : value) : result (list value) :=
  t <- subscript element "type" ;;
  if is_str t "Vector" then
    v <- call_classmethod cls_Vector (Vector.from_json_def json_decode)
           [] [("json_dict", element)] ;;
    Ok [v]
  else
    t <- subscript element "type" ;;
    if is_str t "Point" then
      v <- call_classmethod cls_Point (Point.from_json_def json_decode)
             [] [("json_dict", element)] ;;
      Ok [v]
    else Ok [].

Definition from_json (cls json_string json_dict : value)
    : result value :=
  json_dict <- load_json_dict json_decode json_string json_dict
                 "Illegal Container JSON format" ;;
  approved_elements <- except_reraise
    (elements <- subscript json_dict "elements" ;;
     items <- iterate elements ;;
     approved <- sequence (map from_json_element items) ;;
     Ok (List.concat approved))
    [KeyError; ValueError]
    (Raised ValueError [Text "Illegal Container JSON format"]) ;;
  Container.new approved_elements [].

Definition from_json_def : pyfun value :=
  {| params := [required "cls"; optional "json_string" VNone;
                optional "json_dict" VNone];
     body := fun vs =>
       match vs with
       | [cls; json_string; json_dict] =>
           from_json cls json_string json_dict
       | _ => Raise (Builtin TypeError)
       end |}.
End Json.

End Container.

End ClassMethods.

Import ClassMethods.

(** * Specifications *)

(** ** Sample values *)

Definition int (n : Z) : value := VNum (PyInt n).

(** [Point(a, b, c)] for three integers. *)
Definition int_Point (a b c : Z) : point := MkPoint (PyInt a) (PyInt b) (PyInt c).

(** [Vector(a, b, c)] for three integers: the start point is the default
    one, the end point has the same coordinates as the Vector. *)
Definition int_Vector (a b c : Z) : vector :=
  MkVector (int_Point a b c) default_start_point (ObjPoint (int_Point a b c)).

(** A string literal with every apostrophe turned into a double quote. *)
Fixpoint dq (s : string) : string :=
  match s with
  | EmptyString => EmptyString
  | String c t => String (if Ascii.eqb c "'" then dquote else c) (dq t)
  end.


(** ** The relation between the coordinates and the end points *)





(** [v'] is [v] with the attribute [name] replaced by [value] and nothing
    else changed. *)
Definition stores (v : vector) (name : string) (value : value) (v' : vector)
    : Prop :=
  (exists c n, coord_of_name name = Some c /\ value = VNum n /\
     v' = MkVector (set_coord (base_of v) c n) (start_point_of v) (end_point_of v))
  \/ (name = "start_point" /\ exists o, value = VObj o /\
        v' = MkVector (base_of v) o (end_point_of v))
  \/ (name = "end_point" /\ exists o, value = VObj o /\
        v' = MkVector (base_of v) (start_point_of v) o).

(** ** Tools for the round trip of a Point through its string *)

(** The language of a pattern, as a relation: [matches r s] when the whole
    of [s] is a match of [r]. *)
Inductive matches : regex -> string -> Prop :=
| MEps : matches Eps ""
| MChar items c : in_set items c = true -> matches (CharSet items) (String c "")
| MSeq r1 r2 s1 s2 :
    matches r1 s1 -> matches r2 s2 -> matches (Seq r1 r2) (s1 ++ s2)
| MAltL r1 r2 s : matches r1 s -> matches (Alt r1 r2) s
| MAltR r1 r2 s : matches r2 s -> matches (Alt r1 r2) s
| MStarNil r : matches (Star r) ""
| MStarApp r s1 s2 :
    matches r s1 -> matches (Star r) s2 -> matches (Star r) (s1 ++ s2).

(** Every character of [s] satisfies [P]. *)
Fixpoint all_chars (P : ascii -> bool) (s : string) : bool :=
  match s with
  | EmptyString => true
  | String c t => P c && all_chars P t
  end.

(** The number denoted by [acc] followed by the decimal digits [d]. *)
Fixpoint uint_value (acc : Z) (d : Decimal.uint) : Z :=
  match d with
  | Decimal.Nil => acc
  | Decimal.D0 l => uint_value (10 * acc + 0) l
  | Decimal.D1 l => uint_value (10 * acc + 1) l
  | Decimal.D2 l => uint_value (10 * acc + 2) l
  | Decimal.D3 l => uint_value (10 * acc + 3) l
  | Decimal.D4 l => uint_value (10 * acc + 4) l
  | Decimal.D5 l => uint_value (10 * acc + 5) l
  | Decimal.D6 l => uint_value (10 * acc + 6) l
  | Decimal.D7 l => uint_value (10 * acc + 7) l
  | Decimal.D8 l => uint_value (10 * acc + 8) l
  | Decimal.D9 l => uint_value (10 * acc + 9) l
  end.

(** The decimal digits of the absolute value of [n]. *)
Definition digits_of (n : Z) : Decimal.uint :=
  match n with
  | 0 => Decimal.D0 Decimal.Nil
  | Zpos p | Zneg p => Pos.to_uint p
  end.

(** ** Arithmetic of the cross product *)


(** ** Further specifications *)

(** A Vector of integer coordinates that starts at a Point of integer
    coordinates, with any end point. *)
Definition int_Vector_at (a b c sa sb sc : Z) (e : obj) : vector :=
  MkVector (int_Point a b c) (ObjPoint (int_Point sa sb sc)) e.

(** What a constructor or an operator builds from integer coordinates and an
    integer start point: the end point is the start point moved by the
    coordinates. *)
Definition int_Vector_from (a b c sa sb sc : Z) : vector :=
  int_Vector_at a b c sa sb sc (ObjPoint (int_Point (sa + a) (sb + b) (sc + c))).



(** Induction over an instance and the instances it holds. *)
Scheme obj_mutual := Induction for obj Sort Prop
  with vector_mutual := Induction for vector Sort Prop.

(** [float(n)] when it has a value. *)
Definition as_float (n : number) : spec_float :=
  match n with
  | PyInt k => float_of_Z k
  | PyFloat f => f
  end.

(** A number that [float()] keeps: an integer up to 2^53 in absolute value,
    or a float other than NaN. *)
Definition kept_by_float (n : number) : Prop :=
  match n with
  | PyInt k => Z.abs k <= 2 ^ 53
  | PyFloat f => SFeqb f f = true
  end.

Definition point_kept_by_float (p : point) : Prop :=
  kept_by_float (point_coord p X) /\ kept_by_float (point_coord p Y) /\
  kept_by_float (point_coord p Z_).

(** The Point of the floats of the coordinates of [p]. *)
Definition float_Point (p : point) : point :=
  MkPoint (PyFloat (as_float (point_coord p X)))
          (PyFloat (as_float (point_coord p Y)))
          (PyFloat (as_float (point_coord p Z_))).



(** A character of a coordinate: a digit, a sign or the dot. *)
Definition is_num_char (c : ascii) : bool :=
  is_digit c || Ascii.eqb c "+" || Ascii.eqb c "-" || Ascii.eqb c ".".

(** [s] is made of characters of [POINT_SPLITTERS] only. *)
Definition separators_only (s : string) : bool :=
  all_chars (in_set POINT_SPLITTERS) s.

(** * Theorems *)

(** ** The run time on a few values *)

(** [repr] and [float()] on floats of both notations, and true division. *)
Remark float_text_examples :
  float_repr (float_of_decimal false 1 (-1)) = "0.1" /\
  float_repr (float_of_Z 3) = "3.0" /\
  float_repr (float_of_Z (10 ^ 15)) = "1000000000000000.0" /\
  float_repr (float_of_Z (10 ^ 16)) = "1e+16" /\
  float_repr (float_of_decimal false 15 (-8)) = "1.5e-07" /\
  float_repr (div_round false 1 3) = "0.3333333333333333" /\
  float_of_str " -12.5e1 " = Ok (float_of_Z (-125)) /\
  float_of_str "1_000" = Ok (float_of_Z 1000) /\
  float_of_str "1e" = Raise (Builtin ValueError) /\
  py_truediv (PyInt 1) (PyInt 2) = Ok (PyFloat (float_of_decimal false 5 (-1))) /\
  py_truediv (PyInt 1) (PyInt 0) = Raise (Builtin ZeroDivisionError).
Proof.
  repeat split; vm_compute; reflexivity.
Qed.

(** ** Container *)

Lemma fold_append_conforming (elements approved : list value) :
  fold_left (fun approved arg =>
               if is_Point arg || is_Vector arg
               then (approved ++ [arg])%list else approved)
            elements approved
  = (approved ++ filter (fun el => is_Vector el || is_Point el) elements)%list.
Proof.
  revert approved.
  induction elements as [|el rest IH]; intros approved; simpl.
  - now rewrite app_nil_r.
  - rewrite IH, (orb_comm (is_Vector el)).
    destruct (is_Point el || is_Vector el); [|reflexivity].
    now rewrite <- app_assoc.
Qed.

(** C2.  Bulk construction does drop every element that is neither a Point
    nor a Vector and raises nothing, but it keeps each conforming element
    twice: the filtered list is built first and then every conforming
    argument is appended to it again.  [Container(Point(1,1,1), 3, "bad")]
    has length 2. *)
Theorem Container_init_keeps_twice :
  (forall elements,
     Container.__init__ elements
     = (filter (fun el => is_Vector el || is_Point el) elements ++
        filter (fun el => is_Vector el || is_Point el) elements)%list) /\
  Container.__init__ [VObj (ObjPoint (int_Point 1 1 1)); int 3; VStr "bad"]
  = [VObj (ObjPoint (int_Point 1 1 1)); VObj (ObjPoint (int_Point 1 1 1))] /\
  List.length
    (Container.__init__ [VObj (ObjPoint (int_Point 1 1 1)); int 3; VStr "bad"])
  = 2%nat.
Proof.
  split; [|split; reflexivity].
  intros elements. unfold Container.__init__. apply fold_append_conforming.
Qed.





(** ** Vector: the class methods without [cls] *)

(** C4.  [Vector.from_json] never returns: the class arrives in
    [json_string], it is true, and [json.loads] of a class raises
    [TypeError].  So the round trip fails for every Vector, whatever the
    JSON parser; [Vector(1, 2, 3)] is shown with its text. *)
Theorem Vector_from_json_raises :
  (forall json_decode (arg : value),
     call_classmethod cls_Vector (Vector.from_json_def json_decode) [arg] []
     = Raise (Builtin TypeError)) /\
  (forall json_decode (arg : value),
     call_classmethod cls_Vector (Vector.from_json_def json_decode)
       [] [("json_dict", arg)]
     = Raise (Builtin TypeError)) /\
  Vector.to_json (int_Vector 1 2 3) false
  = Ok (VStr (dq "{'start_point': {'x': 0, 'y': 0, 'z': 0, 'type': 'Point'}, 'end_point': {'x': 1, 'y': 2, 'z': 3, 'type': 'Point'}, 'x': 1, 'y': 2, 'z': 3, 'type': 'Vector'}")).
Proof.
  repeat split; reflexivity.
Qed.

(** C6.  [Vector.collinear(first, second)] never returns a truth value: the
    class is bound to [first], so that two arguments are one too many
    ([TypeError]), and one argument is taken for [second] and the class
    fails the type check.  The body itself, were it given the two Vectors,
    compares the quotients as the claim says. *)
Theorem Vector_collinear_call_raises :
  (forall first second : value,
     call_classmethod cls_Vector Vector.collinear_def [first; second] []
     = Raise (Builtin TypeError)) /\
  (forall second : value,
     call_classmethod cls_Vector Vector.collinear_def [second] []
     = Raise (Raised ValueError
                [Text "Can't check if non-vectors are collinear"])) /\
  Vector.collinear (VObj (ObjVector (int_Vector 1 2 3)))
                   (VObj (ObjVector (int_Vector 2 4 6))) = Ok true /\
  Vector.collinear (VObj (ObjVector (int_Vector 1 2 3)))
                   (VObj (ObjVector (int_Vector 1 2 4))) = Ok false.
Proof.
  repeat split; reflexivity.
Qed.

(** C7.  [a - b] raises [TypeError] for every two Vectors: [-other] needs
    [__neg__], which neither class defines.  Only the type check in front of
    it works as the claim says. *)
Theorem Vector_sub_raises :
  forall (self : vector) (other : value),
    Vector.__sub__ self other
    = if is_Vector other then Raise (Builtin TypeError)
      else Raise (Raised ValueError
                    [Text "Can't substract "; TypeOf other;
                     Text " from Vector"]).
Proof.
  intros self other. unfold Vector.__sub__.
  destruct other as [| | | | |[p|v]| |]; reflexivity.
Qed.

(** ** Vector: equality *)

(** C10.  Called on a Point with a Vector of the same coordinates,
    [Point.__eq__] returns [True]; called on the Vector, [Vector.__eq__]
    returns [False] for that Point and for anything else that is not a
    Vector. *)
Theorem Point_Vector_eq_asymmetric :
  forall (p : point) (v : vector) (other : value),
    num_eqb (point_coord p X) (Vector.vx v) = true ->
    num_eqb (point_coord p Y) (Vector.vy v) = true ->
    num_eqb (point_coord p Z_) (Vector.vz v) = true ->
    is_Vector other = false ->
    Point.__eq__ p (VObj (ObjVector v)) = true /\
    Vector.__eq__ v (VObj (ObjPoint p)) = false /\
    Vector.__eq__ v other = false.
Proof.
  intros p v other Hx Hy Hz Hother.
  split; [|split].
  - unfold Point.__eq__, coord_of. simpl.
    unfold Vector.vx, Vector.vy, Vector.vz in *.
    now rewrite Hx, Hy, Hz.
  - destruct v; reflexivity.
  - destruct v. destruct other as [| | | | |[q|w]| |]; try reflexivity.
    discriminate Hother.
Qed.

Lemma Point_Vector_eq_asymmetric_1_2_3 :
  Point.__eq__ (int_Point 1 2 3) (VObj (ObjVector (int_Vector 1 2 3))) = true /\
  Vector.__eq__ (int_Vector 1 2 3) (VObj (ObjPoint (int_Point 1 2 3))) = false /\
  Vector.__eq__ (int_Vector 1 2 3) (VObj (ObjPoint (int_Point 1 2 3))) = false.
Proof.
  apply (Point_Vector_eq_asymmetric (int_Point 1 2 3) (int_Vector 1 2 3)
           (VObj (ObjPoint (int_Point 1 2 3)))); reflexivity.
Defined.

(** The operator [p == v] is another matter: for a Point on the left and a
    Vector on the right Python evaluates the method of the subclass first,
    and the comparison is [False] in both directions. *)
Remark eq_op_Point_Vector (p : point) (v : vector) :
  Vector.eq_op (ObjPoint p) (ObjVector v) = false /\
  Vector.eq_op (ObjVector v) (ObjPoint p) = false.
Proof.
  destruct v; split; reflexivity.
Qed.

(** ** Vector: the cross product *)



(** ** Vector: coordinates and end points *)

Lemma check_coordinate_Ok (value : value) (n : number) :
  Point.check_coordinate value = Ok n -> value = VNum n.
Proof.
  destruct value; simpl; intros H; try discriminate. now injection H as ->.
Qed.

Lemma check_Point_Ok (value : value) (o : obj) :
  Vector.check_Point value = Ok o -> value = VObj o.
Proof.
  destruct value; simpl; intros H; try discriminate. now injection H as ->.
Qed.

Lemma bind_Ok {A B : Type} (r : result A) (k : A -> result B) (b : B) :
  bind r k = Ok b -> exists a, r = Ok a /\ k a = Ok b.
Proof.
  destruct r as [a|e]; simpl; intros H; [now exists a | discriminate].
Qed.



Lemma set_coord_other (p : point) (c c' : coord) (n : number) :
  c <> c' -> point_coord (set_coord p c n) c' = point_coord p c'.
Proof.
  destruct p, c, c'; simpl; congruence.
Qed.

Lemma setattr_stores (v : vector) (name : string) (value : value) (v' : vector) :
  Vector.__setattr__ v name value = Ok v' -> stores v name value v'.
Proof.
  destruct v as [b s e]. unfold Vector.__setattr__, stores. simpl.
  destruct (String.eqb name "x" || String.eqb name "y" || String.eqb name "z")
    eqn:Hxyz.
  - intros H. apply bind_Ok in H as (b' & Hb & H). injection H as <-.
    unfold Point.__setattr__ in Hb.
    destruct (coord_of_name name) as [c|]; [|discriminate].
    apply bind_Ok in Hb as (n & Hn & Hb). injection Hb as <-.
    apply check_coordinate_Ok in Hn. left. now exists c, n.
  - destruct (String.eqb name "start_point") eqn:Hs.
    + intros H. apply bind_Ok in H as (o & Ho & H). injection H as <-.
      apply check_Point_Ok in Ho. apply String.eqb_eq in Hs.
      right; left. split; [assumption|now exists o].
    + destruct (String.eqb name "end_point") eqn:He; [|discriminate].
      intros H. apply bind_Ok in H as (o & Ho & H). injection H as <-.
      apply check_Point_Ok in Ho. apply String.eqb_eq in He.
      right; right. split; [assumption|now exists o].
Qed.






(** With floats the relation can fail right after construction from
    coordinates: for a start point at 2^53 and [x = 1] the end point is
    rounded back to 2^53, and the difference of the end points is 0. *)
Remark Vector_init_float_rounding :
  let start := VObj (ObjPoint (MkPoint (PyFloat (float_of_Z (2 ^ 53)))
                                       (PyInt 0) (PyInt 0))) in
  exists v, Vector.__init__ (int 1) (int 0) (int 0) start VNone = Ok v /\
            Vector.vx v = PyInt 1 /\
            py_sub (coord_of (end_point_of v) X) (coord_of (start_point_of v) X)
            = Ok (PyFloat (S754_zero false)).
Proof.
  eexists. split; [vm_compute; reflexivity|]. split; reflexivity.
Qed.

(** ** Point: from a string and back *)

(** *** Strings *)
Lemma append_nil_r (s : string) : s ++ "" = s.
Proof. induction s; simpl; congruence. Qed.

Lemma append_assoc (a b c : string) : (a ++ b) ++ c = a ++ (b ++ c).
Proof. induction a; simpl; congruence. Qed.

Lemma append_eq_nil (a b : string) : a ++ b = "" -> a = "" /\ b = "".
Proof. destruct a; simpl; [auto | discriminate]. Qed.

(** *** The matcher finds every match *)
Lemma matches_nullable (r : regex) (s : string) :
  matches r s -> s = "" -> nullable r = true.
Proof.
  induction 1; intros E; simpl; try reflexivity; try discriminate.
  - apply append_eq_nil in E as [-> ->]. now rewrite IHmatches1, IHmatches2.
  - now rewrite IHmatches.
  - rewrite IHmatches by assumption. apply orb_true_r.
Qed.

Lemma matches_deriv (r : regex) (s : string) :
  matches r s -> forall c t, s = String c t -> matches (deriv c r) t.
Proof.
  induction 1; intros a t E; simpl.
  - discriminate.
  - injection E as <- <-. rewrite H. constructor.
  - destruct s1 as [|c1 s1'].
    + simpl in E. rewrite (matches_nullable r1 "" H eq_refl).
      apply MAltR. now apply IHmatches2.
    + simpl in E. injection E as <- <-.
      assert (L : matches (Seq (deriv c1 r1) r2) (s1' ++ s2)).
      { constructor; [now apply IHmatches1 | assumption]. }
      destruct (nullable r1); [now apply MAltL | assumption].
  - apply MAltL. now apply IHmatches.
  - apply MAltR. now apply IHmatches.
  - discriminate.
  - destruct s1 as [|c1 s1'].
    + simpl in E. now apply IHmatches2.
    + simpl in E. injection E as <- <-.
      constructor; [now apply IHmatches1 | assumption].
Qed.

Lemma re_match_prefix (p q : string) :
  forall r, matches r p -> re_match r (p ++ q) = true.
Proof.
  induction p as [|c p IH]; intros r M.
  - destruct q; simpl; now rewrite (matches_nullable r "" M eq_refl).
  - simpl. rewrite (IH (deriv c r)).
    + apply orb_true_r.
    + now apply (matches_deriv r (String c p) M).
Qed.

Lemma re_match_whole (r : regex) (s : string) :
  matches r s -> re_match r s = true.
Proof.
  intros M. rewrite <- (append_nil_r s). now apply re_match_prefix.
Qed.

(** *** The decimal text of an integer *)
Lemma all_chars_impl (P Q : ascii -> bool) (s : string) :
  (forall c, P c = true -> Q c = true) ->
  all_chars P s = true -> all_chars Q s = true.
Proof.
  intros PQ. induction s as [|c t IH]; simpl; [reflexivity|].
  intros H. apply andb_true_iff in H as [Hc Ht].
  now rewrite (PQ c Hc), IH.
Qed.

Lemma uint_string_digits (d : Decimal.uint) :
  all_chars is_digit (NilEmpty.string_of_uint d) = true.
Proof. induction d; simpl; auto. Qed.

Lemma take_digits_uint (d : Decimal.uint) :
  forall acc len,
    take_digits acc len (NilEmpty.string_of_uint d)
    = (uint_value acc d, (len + Decimal.nb_digits d)%nat, "").
Proof.
  induction d; intros acc len; simpl;
    try (rewrite IHd; cbn [uint_value]; do 2 f_equal; lia).
  now rewrite Nat.add_0_r.
Qed.

Lemma uint_value_pos (d : Decimal.uint) :
  forall acc : positive, uint_value (Zpos acc) d = Zpos (Pos.of_uint_acc d acc).
Proof.
  induction d; intros acc; cbn [uint_value Pos.of_uint_acc]; try reflexivity;
    rewrite <- IHd; f_equal; lia.
Qed.

Lemma uint_value_0 (d : Decimal.uint) :
  uint_value 0 d = Z.of_N (Pos.of_uint d).
Proof.
  induction d; cbn [uint_value Pos.of_uint]; try reflexivity; try assumption;
    apply (uint_value_pos d).
Qed.

Lemma digits_of_value (n : Z) : uint_value 0 (digits_of n) = Z.abs n.
Proof.
  destruct n as [|p|p]; [reflexivity| |];
    simpl; now rewrite uint_value_0, Unsigned.of_to.
Qed.

Lemma to_uint_not_Nil (p : positive) : Pos.to_uint p <> Decimal.Nil.
Proof.
  intros E. pose proof (Unsigned.of_to p) as H. rewrite E in H. discriminate H.
Qed.

Lemma digits_of_not_Nil (n : Z) : digits_of n <> Decimal.Nil.
Proof.
  destruct n; simpl; [discriminate | apply to_uint_not_Nil ..].
Qed.

Lemma str_of_Z_digits (n : Z) :
  str_of_Z n = (if n <? 0 then "-" else "") ++ NilEmpty.string_of_uint (digits_of n).
Proof.
  destruct n as [|p|p]; [reflexivity| |];
    unfold str_of_Z; simpl; pose proof (to_uint_not_Nil p);
    destruct (Pos.to_uint p); try reflexivity; contradiction.
Qed.

(** *** What a digit is not *)
Lemma digit_not (c d : ascii) :
  is_digit d = false -> is_digit c = true -> Ascii.eqb c d = false.
Proof.
  intros Hd Hc. destruct (Ascii.eqb_spec c d) as [->|]; congruence.
Qed.

Lemma digit_in_range (c : ascii) :
  is_digit c = true -> in_set [Range "0" "9"] c = true.
Proof. intros H. unfold in_set. simpl. unfold is_digit in H. now rewrite orb_false_r. Qed.

Lemma digit_not_splitter (c : ascii) :
  is_digit c = true -> negb (in_set POINT_SPLITTERS c) = true.
Proof.
  intros H. unfold in_set, POINT_SPLITTERS. simpl.
  now rewrite (digit_not c "(" eq_refl H), (digit_not c ";" eq_refl H),
    (digit_not c ")" eq_refl H).
Qed.

Lemma digit_not_space (c : ascii) :
  is_digit c = true -> negb (is_space c) = true.
Proof.
  unfold is_digit, is_space. intros H. apply andb_true_iff in H as [H1 H2].
  apply N.leb_le in H1, H2.
  rewrite negb_true_iff, !orb_false_iff, andb_false_iff, !N.eqb_neq, !N.leb_gt.
  lia.
Qed.

Lemma digit_not_underscore (c : ascii) :
  is_digit c = true -> negb (Ascii.eqb c "_") = true.
Proof. intros H. now rewrite (digit_not c "_" eq_refl H). Qed.

(** *** The pattern of one coordinate *)
Lemma star_digits (s : string) :
  all_chars is_digit s = true -> matches (Star digit) s.
Proof.
  induction s as [|c t IH]; simpl; intros H.
  - constructor.
  - apply andb_true_iff in H as [Hc Ht].
    apply (MStarApp digit (String c "") t); [|now apply IH].
    constructor. now apply digit_in_range.
Qed.

Lemma plus_digits (s : string) :
  nonempty s = true -> all_chars is_digit s = true -> matches (Plus digit) s.
Proof.
  destruct s as [|c t]; [discriminate|]. intros _ H. simpl in H.
  apply andb_true_iff in H as [Hc Ht].
  apply (MSeq _ _ (String c "") t);
    [constructor; now apply digit_in_range | now apply star_digits].
Qed.

Lemma uint_string_nonempty (d : Decimal.uint) :
  d <> Decimal.Nil -> nonempty (NilEmpty.string_of_uint d) = true.
Proof. destruct d; try reflexivity. contradiction. Qed.

Lemma NUM_matches_str (n : Z) : matches NUM (str_of_Z n).
Proof.
  rewrite str_of_Z_digits.
  assert (M : matches (Seq (Opt (Seq (Star digit) (CharSet [One "."]))) (Plus digit))
                (NilEmpty.string_of_uint (digits_of n))).
  { apply (MSeq _ _ "" _); [apply MAltR; constructor|].
    apply plus_digits;
      [apply uint_string_nonempty, digits_of_not_Nil | apply uint_string_digits]. }
  unfold NUM. destruct (n <? 0).
  - apply (MSeq _ _ "-" _); [|exact M]. apply MAltL. now constructor.
  - apply (MSeq _ _ "" _); [|exact M]. apply MAltR. constructor.
Qed.

Lemma POINT_REGEX_matches (a b c : string) :
  matches NUM a -> matches NUM b -> matches NUM c ->
  matches POINT_REGEX ("(" ++ a ++ ";" ++ b ++ ";" ++ c ++ ")").
Proof.
  intros Ma Mb Mc. unfold POINT_REGEX.
  apply (MSeq _ _ "(" _); [now constructor|].
  apply MSeq; [exact Ma|]. apply (MSeq _ _ ";" _); [now constructor|].
  apply MSeq; [exact Mb|]. apply (MSeq _ _ ";" _); [now constructor|].
  apply MSeq; [exact Mc|]. now constructor.
Qed.

(** *** Cutting at the separators *)
Lemma re_split_piece (seps : list class_item) (a : string) (d : ascii) (rest : string) :
  all_chars (fun c => negb (in_set seps c)) a = true ->
  in_set seps d = true ->
  re_split seps (a ++ String d rest) = a :: re_split seps rest.
Proof.
  intros Ha Hd. induction a as [|c t IH]; simpl.
  - now rewrite Hd.
  - simpl in Ha. apply andb_true_iff in Ha as [Hc Ht].
    apply negb_true_iff in Hc. rewrite Hc, (IH Ht). reflexivity.
Qed.

Lemma str_of_Z_chars (P : ascii -> bool) (n : Z) :
  P "-"%char = true -> (forall c, is_digit c = true -> P c = true) ->
  all_chars P (str_of_Z n) = true.
Proof.
  intros Hm Hd. rewrite str_of_Z_digits.
  pose proof (all_chars_impl _ P _ Hd (uint_string_digits (digits_of n))) as H.
  destruct (n <? 0); simpl; [now rewrite Hm | assumption].
Qed.

Lemma str_of_Z_nonempty (n : Z) : nonempty (str_of_Z n) = true.
Proof.
  rewrite str_of_Z_digits. destruct (n <? 0); [reflexivity|].
  apply uint_string_nonempty, digits_of_not_Nil.
Qed.

Lemma split_point_string (a b c : Z) :
  filter nonempty
    (re_split POINT_SPLITTERS
       ("(" ++ str_of_Z a ++ ";" ++ str_of_Z b ++ ";" ++ str_of_Z c ++ ")"))
  = [str_of_Z a; str_of_Z b; str_of_Z c].
Proof.
  assert (S : forall n, all_chars (fun c => negb (in_set POINT_SPLITTERS c))
                          (str_of_Z n) = true).
  { intros n. apply str_of_Z_chars; [reflexivity | apply digit_not_splitter]. }
  cbn [append re_split]. change (in_set POINT_SPLITTERS "(") with true. cbv iota.
  rewrite (re_split_piece _ _ ";"%char _ (S a) eq_refl).
  rewrite (re_split_piece _ _ ";"%char _ (S b) eq_refl).
  rewrite (re_split_piece _ _ ")"%char _ (S c) eq_refl).
  simpl. now rewrite !str_of_Z_nonempty.
Qed.

(** *** [float(s)] on the text of an integer *)
Lemma string_rev_acc_twice (s : string) :
  forall acc acc',
    string_rev_acc (string_rev_acc s acc) acc' = string_rev_acc acc (s ++ acc').
Proof.
  induction s as [|c t IH]; intros acc acc'; simpl; [reflexivity|].
  now rewrite IH.
Qed.

Lemma string_rev_involutive (s : string) : string_rev (string_rev s) = s.
Proof.
  unfold string_rev. rewrite string_rev_acc_twice. simpl. apply append_nil_r.
Qed.

Lemma all_chars_rev_acc (P : ascii -> bool) (s : string) :
  forall acc,
    all_chars P (string_rev_acc s acc) = all_chars P s && all_chars P acc.
Proof.
  induction s as [|c t IH]; intros acc; simpl; [reflexivity|].
  rewrite IH. simpl. now rewrite andb_assoc, (andb_comm (all_chars P t)).
Qed.

Lemma lstrip_no_space (s : string) :
  all_chars (fun c => negb (is_space c)) s = true -> lstrip s = s.
Proof.
  destruct s as [|c t]; simpl; [reflexivity|]. intros H.
  apply andb_true_iff in H as [Hc _]. apply negb_true_iff in Hc. now rewrite Hc.
Qed.

Lemma strip_no_space (s : string) :
  all_chars (fun c => negb (is_space c)) s = true -> strip s = s.
Proof.
  intros H. unfold strip. rewrite (lstrip_no_space s H).
  rewrite lstrip_no_space; [apply string_rev_involutive|].
  unfold string_rev. rewrite all_chars_rev_acc, H. reflexivity.
Qed.

Lemma drop_underscores_none (s : string) :
  all_chars (fun c => negb (Ascii.eqb c "_")) s = true ->
  forall prev,
    match prev with Some p => Ascii.eqb p "_" | None => false end = false ->
    drop_underscores prev s = Some s.
Proof.
  induction s as [|c t IH]; simpl; intros H prev Hp.
  - now rewrite Hp.
  - apply andb_true_iff in H as [Hc Ht]. apply negb_true_iff in Hc.
    rewrite Hc, Hp. simpl. rewrite (IH Ht (Some c) Hc). reflexivity.
Qed.

Lemma take_sign_uint (d : Decimal.uint) :
  take_sign (NilEmpty.string_of_uint d) = (false, NilEmpty.string_of_uint d).
Proof. destruct d; reflexivity. Qed.

Lemma parse_inf_nan_uint (neg : bool) (d : Decimal.uint) :
  parse_inf_nan neg (NilEmpty.string_of_uint d) = None.
Proof. destruct d; reflexivity. Qed.

Lemma parse_decimal_uint (d : Decimal.uint) :
  d <> Decimal.Nil ->
  parse_decimal (NilEmpty.string_of_uint d) = Some (uint_value 0 d, 0).
Proof.
  intros NN. unfold parse_decimal. rewrite take_digits_uint.
  destruct d; try contradiction; reflexivity.
Qed.

Lemma float_of_decimal_int (n : Z) :
  float_of_decimal (n <? 0) (Z.abs n) 0 = float_of_Z n.
Proof.
  destruct n as [|p|p]; try reflexivity;
    unfold float_of_decimal, float_of_Z; simpl; now rewrite Pos.mul_1_r.
Qed.

Lemma float_of_str_int (n : Z) : float_of_str (str_of_Z n) = Ok (float_of_Z n).
Proof.
  unfold float_of_str.
  rewrite strip_no_space
    by (apply str_of_Z_chars; [reflexivity | apply digit_not_space]).
  rewrite drop_underscores_none;
    [|apply str_of_Z_chars; [reflexivity | apply digit_not_underscore]
     |reflexivity].
  rewrite str_of_Z_digits.
  assert (E : take_sign ((if n <? 0 then "-" else "") ++
                         NilEmpty.string_of_uint (digits_of n))
              = (n <? 0, NilEmpty.string_of_uint (digits_of n))).
  { destruct (n <? 0); [reflexivity | apply take_sign_uint]. }
  rewrite E, parse_inf_nan_uint, (parse_decimal_uint _ (digits_of_not_Nil n)).
  now rewrite digits_of_value, float_of_decimal_int.
Qed.

Lemma Point_from_str_int (a b c : Z) :
  call_classmethod cls_Point Point.from_str_def
    [VStr (Point.__str__ (int_Point a b c))] []
  = Ok (VObj (ObjPoint (MkPoint (PyFloat (float_of_Z a)) (PyFloat (float_of_Z b))
                                (PyFloat (float_of_Z c))))).
Proof.
  unfold call_classmethod, call. cbn [params Point.from_str_def bind_args].
  cbn -[Point.from_str Point.__str__]. 
  unfold Point.from_str, Point.__str__. 
  cbn [point_coord int_Point str_of_number].
  rewrite (re_match_whole _ _ (POINT_REGEX_matches _ _ _ (NUM_matches_str a)
             (NUM_matches_str b) (NUM_matches_str c))).
  cbn [negb]. rewrite split_point_string.
  unfold py_float. rewrite !float_of_str_int. reflexivity.
Qed.

(** *** Integers that a float holds exactly *)
Lemma digits2_pos_bounds (p : positive) :
  2 ^ (Zpos (digits2_pos p) - 1) <= Zpos p < 2 ^ Zpos (digits2_pos p).
Proof.
  induction p as [p IH|p IH|]; cbn [digits2_pos].
  - rewrite Pos2Z.inj_succ.
    replace (Z.succ (Zpos (digits2_pos p)) - 1) with (Zpos (digits2_pos p)) by lia.
    rewrite Z.pow_succ_r by lia.
    replace (Zpos (digits2_pos p)) with (Z.succ (Zpos (digits2_pos p) - 1)) at 1 by lia.
    rewrite Z.pow_succ_r by lia. lia.
  - rewrite Pos2Z.inj_succ.
    replace (Z.succ (Zpos (digits2_pos p)) - 1) with (Zpos (digits2_pos p)) by lia.
    rewrite Z.pow_succ_r by lia.
    replace (Zpos (digits2_pos p)) with (Z.succ (Zpos (digits2_pos p) - 1)) at 1 by lia.
    rewrite Z.pow_succ_r by lia. lia.
  - simpl. lia.
Qed.

Lemma digits2_pos_small (p : positive) :
  Zpos p < 2 ^ 53 -> Zpos (digits2_pos p) <= 53.
Proof.
  intros H. destruct (Z.le_gt_cases (Zpos (digits2_pos p)) 53) as [|G]; [assumption|].
  pose proof (digits2_pos_bounds p) as [L _].
  assert (2 ^ 53 <= 2 ^ (Zpos (digits2_pos p) - 1))
    by (apply Z.pow_le_mono_r; lia).
  lia.
Qed.

Lemma iter_xO_value (p k : positive) :
  Zpos (Pos.iter xO p k) = Zpos p * 2 ^ Zpos k.
Proof.
  induction k as [|k IH] using Pos.peano_ind.
  - simpl. lia.
  - rewrite Pos.iter_succ, Pos2Z.inj_succ, Z.pow_succ_r by lia.
    rewrite Pos2Z.inj_xO, IH. lia.
Qed.

Lemma iter_xO_digits (p k : positive) :
  digits2_pos (Pos.iter xO p k) = (digits2_pos p + k)%positive.
Proof.
  induction k as [|k IH] using Pos.peano_ind.
  - simpl. lia.
  - rewrite Pos.iter_succ. cbn [digits2_pos]. rewrite IH. lia.
Qed.

Lemma binary_round_aux_canonical (s : bool) (m : positive) (e : Z) :
  Zpos (digits2_pos m) = 53 -> -52 <= e <= 0 ->
  binary_round_aux prec emax s (Zpos m) e loc_Exact = S754_finite s m e.
Proof.
  intros Hd He.
  assert (F : fexp prec emax (Zpos (digits2_pos m) + e) - e = 0).
  { unfold fexp, SpecFloat.emin, prec, emax. lia. }
  unfold binary_round_aux, shr_fexp. cbn [Zdigits2 shr_record_of_loc].
  rewrite F. cbn [shr shr_m loc_of_shr_record round_nearest_even].
  cbn [Zdigits2 shr_record_of_loc]. rewrite F. cbn [shr shr_m].
  replace (e <=? emax - prec) with true; [reflexivity|].
  symmetry. apply Z.leb_le. unfold emax, prec. lia.
Qed.

Lemma binary_round_small (s : bool) (p : positive) :
  Zpos p < 2 ^ 53 ->
  exists m e, binary_round prec emax s p 0 = S754_finite s m e /\
              e <= 0 /\ Zpos m = Zpos p * 2 ^ (- e).
Proof.
  intros H. pose proof (digits2_pos_small p H) as D.
  unfold binary_round, shl_align.
  assert (F : fexp prec emax (Zpos (digits2_pos p) + 0) = Zpos (digits2_pos p) - 53).
  { unfold fexp, SpecFloat.emin, prec, emax. lia. }
  rewrite F.
  destruct (Zpos (digits2_pos p) - 53 - 0) as [|k|k] eqn:E; try lia.
  - exists p, 0. split; [|split; [lia | simpl; lia]].
    apply binary_round_aux_canonical; lia.
  - exists (Pos.iter xO p k), (Zpos (digits2_pos p) - 53).
    split; [|split; [lia|]].
    + apply binary_round_aux_canonical; [|lia].
      rewrite iter_xO_digits. lia.
    + rewrite iter_xO_value. f_equal. f_equal. lia.
Qed.

Lemma int_float_eqb_exact (n : Z) :
  Z.abs n <= 2 ^ 53 -> int_float_eqb n (float_of_Z n) = true.
Proof.
  intros H.
  destruct (Z.eq_dec (Z.abs n) (2 ^ 53)) as [E|NE].
  - assert (C : n = 2 ^ 53 \/ n = - 2 ^ 53) by lia.
    destruct C as [-> | ->]; vm_compute; reflexivity.
  - destruct n as [|p|p]; [reflexivity| |].
    + destruct (binary_round_small false p) as (m & e & R & He & Hm); [lia|].
      unfold float_of_Z, binary_normalize. rewrite R. unfold int_float_eqb.
      cbn [cond_Zopp]. destruct (0 <=? e) eqn:L.
      * apply Z.leb_le in L. assert (e = 0) as -> by lia.
        apply Z.eqb_eq. simpl in Hm. lia.
      * apply Z.eqb_eq. lia.
    + destruct (binary_round_small true p) as (m & e & R & He & Hm); [lia|].
      unfold float_of_Z, binary_normalize. rewrite R. unfold int_float_eqb.
      cbn [cond_Zopp]. destruct (0 <=? e) eqn:L.
      * apply Z.leb_le in L. assert (e = 0) as -> by lia.
        apply Z.eqb_eq. simpl in Hm. lia.
      * apply Z.eqb_eq. rewrite <- Pos2Z.opp_pos, Z.mul_opp_l, Hm. reflexivity.
Qed.




(** Floats: the float 2.5 comes back, the float 10^16 does not, its string
    being in exponent notation, which [POINT_REGEX] does not match. *)
Remark Point_from_str_float_examples :
  let half5 := PyFloat (float_of_decimal false 25 (-1)) in
  let zero := PyFloat (S754_zero false) in
  let p := MkPoint half5 (PyInt 0) (PyInt 0) in
  let q := MkPoint (PyFloat (float_of_Z (10 ^ 16))) (PyInt 0) (PyInt 0) in
  Point.__str__ p = "(2.5;0;0)" /\
  call_classmethod cls_Point Point.from_str_def [VStr (Point.__str__ p)] []
  = Ok (VObj (ObjPoint (MkPoint half5 zero zero))) /\
  Point.__eq__ (MkPoint half5 zero zero) (VObj (ObjPoint p)) = true /\
  Point.__str__ q = "(1e+16;0;0)" /\
  call_classmethod cls_Point Point.from_str_def [VStr (Point.__str__ q)] []
  = Raise (Raised ValueError [Text "Illegal Point string format"]).
Proof.
  repeat split; vm_compute; reflexivity.
Qed.

(** * Further properties *)

(** X1.  An assignment to [x], [y] or [z] of a Point with a number succeeds,
    the attribute then reads as that number and the other two are unchanged;
    a value that is not a number raises [ValueError], any other attribute
    name raises [AttributeError]. *)
Theorem Point_setattr_reads_back :
  forall (p : point) (name : string) (value : value),
    match coord_of_name name, value with
    | Some c, VNum n =>
        exists p', Point.__setattr__ p name value = Ok p' /\
                   point_coord p' c = n /\
                   forall c', c' <> c -> point_coord p' c' = point_coord p c'
    | Some _, _ =>
        Point.__setattr__ p name value
        = Raise (Raised ValueError [Text "Illegal coordinate: "; StrOf value])
    | None, _ =>
        Point.__setattr__ p name value
        = Raise (Raised AttributeError
                   [Text "Point has no attribute "; StrOf (VStr name)])
    end.
Proof.
  intros p name value. unfold Point.__setattr__.
  destruct (coord_of_name name) as [c|]; [|reflexivity].
  destruct value as [|n| | | | | |]; try reflexivity.
  exists (set_coord p c n). split; [reflexivity|]. split.
  - destruct p, c; reflexivity.
  - intros c' Hc. destruct p, c, c'; simpl; congruence.
Qed.

(** *** Equality of numbers is symmetric *)

Lemma SFeqb_sym (f g : spec_float) : SFeqb f g = SFeqb g f.
Proof.
  unfold SFeqb, SFcompare.
  destruct f as [s|s| |s m e], g as [s'|s'| |s' m' e']; try reflexivity;
    try (destruct s, s'; reflexivity); try (destruct s; reflexivity);
    try (destruct s'; reflexivity).
  change (Pos.compare_cont Eq m m') with (Pos.compare m m').
  change (Pos.compare_cont Eq m' m) with (Pos.compare m' m).
  rewrite (Z.compare_antisym e e'), (Pos.compare_antisym m m').
  destruct s, s'; try reflexivity;
    destruct (e ?= e'); simpl; try reflexivity;
    destruct (m ?= m')%positive; reflexivity.
Qed.

Lemma num_eqb_sym (a b : number) : num_eqb a b = num_eqb b a.
Proof.
  destruct a, b; simpl; try reflexivity; [apply Z.eqb_sym | apply SFeqb_sym].
Qed.

(** X2.  [Point.__eq__] is symmetric on instances: [p.__eq__(o)] is the result
    of [Point.__eq__] on the coordinates of [o], asked about [p]. *)
Theorem Point_eq_symmetric :
  forall (p : point) (o : obj),
    Point.__eq__ p (VObj o) = Point.__eq__ (as_point o) (VObj (ObjPoint p)).
Proof.
  intros p o. unfold Point.__eq__, coord_of. cbn [as_point].
  now rewrite (num_eqb_sym (point_coord p X)), (num_eqb_sym (point_coord p Y)),
    (num_eqb_sym (point_coord p Z_)).
Qed.

(** ** Vector: construction and arithmetic *)

(** X3.  A start point that is not an instance of Point makes the constructor
    raise [AttributeError], in both modes, when the other arguments are fit:
    its coordinates are read before the check of [__setattr__] is reached. *)
Theorem Vector_init_start_not_Point :
  forall x y z s e : value,
    is_Point s = false ->
    (if is_None e then is_number x && is_number y && is_number z
     else is_Point e) = true ->
    Vector.__init__ x y z s e = Raise (Builtin AttributeError).
Proof.
  intros x y z s e Hs H. unfold Vector.__init__.
  destruct (is_None e) eqn:He.
  - destruct x as [|a| | | | | |]; try discriminate H;
    destruct y as [|b| | | | | |]; try discriminate H;
    destruct z as [|c| | | | | |]; try discriminate H.
    destruct s; try discriminate Hs; reflexivity.
  - destruct e; try discriminate H.
    destruct s; try discriminate Hs; reflexivity.
Qed.

Lemma Vector_init_start_not_Point_ex :
  Vector.__init__ (int 1) (int 2) (int 3) (int 5) VNone
  = Raise (Builtin AttributeError).
Proof.
  apply (Vector_init_start_not_Point (int 1) (int 2) (int 3) (int 5) VNone);
    reflexivity.
Defined.

(** X4.  A Vector of integer coordinates times an integer is the Vector of the
    scaled coordinates at the same start point; its end point is computed
    anew from the start point, whatever the end point of [self] was. *)
Theorem Vector_mul_number_int :
  forall (a b c sa sb sc k : Z) (e : obj),
    Vector.__mul__ (int_Vector_at a b c sa sb sc e) (int k)
    = Ok (VObj (ObjVector (int_Vector_from (a * k) (b * k) (c * k) sa sb sc))).
Proof. reflexivity. Qed.

(** X5.  The sum of two Vectors of integer coordinates has the sums as
    coordinates and starts where [self] starts; the end points of both
    operands and the start point of [other] play no part. *)
Theorem Vector_add_int :
  forall (a b c sa sb sc a' b' c' : Z) (e s' e' : obj),
    Vector.__add__ (int_Vector_at a b c sa sb sc e)
      (VObj (ObjVector (MkVector (int_Point a' b' c') s' e')))
    = Ok (VObj (ObjVector
            (int_Vector_from (a + a') (b + b') (c + c') sa sb sc))).
Proof. reflexivity. Qed.

Lemma SFmul_comm (x y : spec_float) : SFmul prec emax x y = SFmul prec emax y x.
Proof.
  destruct x as [s|s| |s m e], y as [s'|s'| |s' m' e']; simpl;
    try reflexivity; try (now rewrite xorb_comm).
  now rewrite xorb_comm, Pos.mul_comm, Z.add_comm.
Qed.

Lemma SFadd_comm (x y : spec_float) : SFadd prec emax x y = SFadd prec emax y x.
Proof.
  destruct x as [s|s| |s m e], y as [s'|s'| |s' m' e']; simpl;
    try reflexivity; try (destruct s, s'; reflexivity).
  now rewrite Z.min_comm, Z.add_comm.
Qed.

Lemma py_mul_comm (a b : number) : py_mul a b = py_mul b a.
Proof.
  destruct a, b; unfold py_mul, float_binop; simpl.
  - now rewrite Z.mul_comm.
  - destruct (int_to_float n); simpl; [now rewrite SFmul_comm | reflexivity].
  - destruct (int_to_float n); simpl; [now rewrite SFmul_comm | reflexivity].
  - now rewrite SFmul_comm.
Qed.

(** X6.  The product of two Vectors does not depend on their order, for
    integers and floats alike, errors included. *)
Theorem Vector_dot_symmetric :
  forall v w : vector,
    Vector.__mul__ v (VObj (ObjVector w)) = Vector.__mul__ w (VObj (ObjVector v)).
Proof.
  intros v w. unfold Vector.__mul__.
  now rewrite (py_mul_comm (Vector.vx v)), (py_mul_comm (Vector.vy v)),
    (py_mul_comm (Vector.vz v)).
Qed.

(** X7.  For integer Vectors the coordinates of [cross(second, first)] are the
    opposites of those of [cross(first, second)]; each result starts where
    its own first operand starts. *)
Theorem Vector_cross_antisymmetric_int :
  forall (fx fy fz sx sy sz gx gy gz tx ty tz : Z) (fe ge : obj),
    let first := int_Vector_at fx fy fz sx sy sz fe in
    let second := int_Vector_at gx gy gz tx ty tz ge in
    exists x y z : Z,
      call_classmethod cls_Vector Vector.cross_def
        [VObj (ObjVector first); VObj (ObjVector second)] []
      = Ok (VObj (ObjVector (int_Vector_from x y z sx sy sz))) /\
      call_classmethod cls_Vector Vector.cross_def
        [VObj (ObjVector second); VObj (ObjVector first)] []
      = Ok (VObj (ObjVector (int_Vector_from (- x) (- y) (- z) tx ty tz))).
Proof.
  intros. exists (fy * gz - fz * gy), (fx * gz - fz * gx), (fx * gy - fy * gx).
  split; [reflexivity|].
  replace (- (fy * gz - fz * gy)) with (gy * fz - gz * fy) by ring.
  replace (- (fx * gz - fz * gx)) with (gx * fz - gz * fx) by ring.
  replace (- (fx * gy - fy * gx)) with (gx * fy - gy * fx) by ring.
  reflexivity.
Qed.

(** X8.  [mixed] of three integer Vectors is a number, the product of the cross
    product with the third Vector.  With the third equal to the first it is
    [2 * first.y * (first.x * second.z - first.z * second.x)], not zero in
    general. *)
Theorem Vector_mixed_int :
  forall (fx fy fz sx sy sz gx gy gz hx hy hz : Z) (fe gs ge hs he : obj),
    let first := int_Vector_at fx fy fz sx sy sz fe in
    let second := MkVector (int_Point gx gy gz) gs ge in
    let third := MkVector (int_Point hx hy hz) hs he in
    call_classmethod cls_Vector Vector.mixed_def
      [VObj (ObjVector first); VObj (ObjVector second); VObj (ObjVector third)] []
    = Ok (VNum (PyInt ((fy * gz - fz * gy) * hx + (fx * gz - fz * gx) * hy
                       + (fx * gy - fy * gx) * hz))) /\
    call_classmethod cls_Vector Vector.mixed_def
      [VObj (ObjVector first); VObj (ObjVector second); VObj (ObjVector first)] []
    = Ok (VNum (PyInt (2 * fy * (fx * gz - fz * gx)))).
Proof.
  intros. split; [reflexivity|].
  replace (2 * fy * (fx * gz - fz * gx))
    with ((fy * gz - fz * gy) * fx + (fx * gz - fz * gx) * fy
          + (fx * gy - fy * gx) * fz) by ring.
  reflexivity.
Qed.

(** X9.  Equality of Vectors does not look at the coordinates: after an
    assignment to [x], [y] or [z] a Vector compares exactly as before, on
    either side. *)
Theorem Vector_eq_ignores_coordinates :
  forall (v v' : vector) (name : string) (value other : value) (w : vector),
    coord_of_name name <> None ->
    Vector.__setattr__ v name value = Ok v' ->
    Vector.__eq__ v' other = Vector.__eq__ v other /\
    Vector.__eq__ w (VObj (ObjVector v')) = Vector.__eq__ w (VObj (ObjVector v)).
Proof.
  intros v v' name value other w Hn H.
  apply setattr_stores in H. destruct v as [b s e]. unfold stores in H. simpl in H.
  destruct H as [(c & n & _ & _ & ->) | [[-> _] | [-> _]]];
    [| now elim Hn | now elim Hn].
  split; [reflexivity|]. destruct w; reflexivity.
Qed.

Lemma Vector_eq_ignores_coordinates_ex :
  Vector.__eq__ (MkVector (int_Point 5 2 3) default_start_point
                          (ObjPoint (int_Point 1 2 3)))
                (VObj (ObjVector (int_Vector 1 2 3)))
  = Vector.__eq__ (int_Vector 1 2 3) (VObj (ObjVector (int_Vector 1 2 3))) /\
  Vector.__eq__ (int_Vector 1 2 3)
    (VObj (ObjVector (MkVector (int_Point 5 2 3) default_start_point
                               (ObjPoint (int_Point 1 2 3)))))
  = Vector.__eq__ (int_Vector 1 2 3) (VObj (ObjVector (int_Vector 1 2 3))).
Proof.
  apply (Vector_eq_ignores_coordinates (int_Vector 1 2 3) _ "x" (int 5));
    [discriminate | reflexivity].
Defined.

(** ** Container: the list and its elements *)







(** ** To JSON *)

Lemma to_json_True_dumps (o : obj) :
  exists d s, Vector.to_json_True o = Ok (VDict d) /\ json_dumps (VDict d) = Ok s.
Proof.
  revert o.
  apply (obj_mutual
           (fun o => exists d s, Vector.to_json_True o = Ok (VDict d) /\
                                 json_dumps (VDict d) = Ok s)
           (fun v => exists d s, Vector.json_dict v = Ok (VDict d) /\
                                 json_dumps (VDict d) = Ok s)).
  - intros [x y z]. eexists. eexists. split; reflexivity.
  - intros v IH. exact IH.
  - intros [x y z] s (sd & ss & Hs & Hss) e (ed & es & He & Hes).
    cbn [Vector.json_dict]. rewrite Hs, He. cbn [bind].
    eexists. eexists. split; [reflexivity|].
    cbn [json_dumps map sequence bind fst snd] in *.
    rewrite Hss, Hes. reflexivity.
Qed.




(** ** From JSON *)

Lemma int_to_float_small (k : Z) :
  Z.abs k <= 2 ^ 53 -> int_to_float k = Ok (float_of_Z k).
Proof.
  intros H. unfold int_to_float.
  destruct (Z.eq_dec (Z.abs k) (2 ^ 53)) as [E|NE].
  - assert (C : k = 2 ^ 53 \/ k = - 2 ^ 53) by lia.
    destruct C as [-> | ->]; vm_compute; reflexivity.
  - destruct k as [|p|p]; [reflexivity| |].
    + destruct (binary_round_small false p) as (m & e & R & _); [lia|].
      unfold float_of_Z, binary_normalize. now rewrite R.
    + destruct (binary_round_small true p) as (m & e & R & _); [lia|].
      unfold float_of_Z, binary_normalize. now rewrite R.
Qed.

Lemma py_float_kept (n : number) :
  kept_by_float n -> py_float (VNum n) = Ok (PyFloat (as_float n)).
Proof.
  destruct n as [k|f]; simpl; intros H; [|reflexivity].
  now rewrite int_to_float_small.
Qed.

Lemma num_eqb_kept (n : number) :
  kept_by_float n -> num_eqb (PyFloat (as_float n)) n = true.
Proof.
  destruct n as [k|f]; simpl; intros H; [|exact H].
  now apply int_float_eqb_exact.
Qed.

Lemma Point_from_json_dict (json_decode : string -> result value)
    (d : list (string * value)) (x y z : number) :
  d <> [] ->
  lookup "x" d = Some (VNum x) -> lookup "y" d = Some (VNum y) ->
  lookup "z" d = Some (VNum z) ->
  kept_by_float x -> kept_by_float y -> kept_by_float z ->
  call_classmethod cls_Point (Point.from_json_def json_decode)
    [] [("json_dict", VDict d)]
  = Ok (VObj (ObjPoint (float_Point (MkPoint x y z)))).
Proof.
  intros Hd Lx Ly Lz Kx Ky Kz.
  unfold call_classmethod, call. cbn -[Point.from_json].
  unfold Point.from_json, load_json_dict. cbn [truthy bind].
  destruct d as [|kv d']; [contradiction|]. cbn [negb truthy bind].
  unfold subscript. rewrite Lx, Ly, Lz. cbn [bind].
  rewrite (py_float_kept x Kx), (py_float_kept y Ky), (py_float_kept z Kz).
  reflexivity.
Qed.

(** X15.  [Point.from_json(json_dict=p.to_json(True))] returns the Point of the
    floats of the coordinates, equal to [p], when every coordinate is an
    integer up to 2^53 in absolute value or a float other than NaN. *)
Theorem Point_from_json_of_to_json :
  forall (json_decode : string -> result value) (p : point),
    point_kept_by_float p ->
    exists d,
      Point.to_json p true = Ok d /\
      call_classmethod cls_Point (Point.from_json_def json_decode)
        [] [("json_dict", d)]
      = Ok (VObj (ObjPoint (float_Point p))) /\
      Point.__eq__ (float_Point p) (VObj (ObjPoint p)) = true.
Proof.
  intros json_decode [x y z] (Kx & Ky & Kz). simpl in Kx, Ky, Kz.
  eexists. split; [reflexivity|]. split.
  - apply Point_from_json_dict; try assumption; try reflexivity. discriminate.
  - unfold Point.__eq__, float_Point, coord_of.
    cbn [as_point point_coord].
    now rewrite !num_eqb_kept.
Qed.

Lemma Point_from_json_of_to_json_ex :
  exists d,
    Point.to_json (int_Point 1 (-2) 3) true = Ok d /\
    call_classmethod cls_Point (Point.from_json_def (fun _ => Ok VNone))
      [] [("json_dict", d)]
    = Ok (VObj (ObjPoint (float_Point (int_Point 1 (-2) 3)))) /\
    Point.__eq__ (float_Point (int_Point 1 (-2) 3))
                 (VObj (ObjPoint (int_Point 1 (-2) 3))) = true.
Proof.
  apply (Point_from_json_of_to_json (fun _ => Ok VNone) (int_Point 1 (-2) 3)).
  repeat split; vm_compute; discriminate.
Defined.

(** X16.  [Point.from_json] does not look at the key [type]: given the [dict]
    of a Vector it returns the Point of the coordinates of the Vector. *)
Theorem Point_from_json_reads_Vector_dict :
  forall (json_decode : string -> result value) (v : vector),
    point_kept_by_float (base_of v) ->
    exists d,
      Vector.to_json v true = Ok d /\
      call_classmethod cls_Point (Point.from_json_def json_decode)
        [] [("json_dict", d)]
      = Ok (VObj (ObjPoint (float_Point (base_of v)))).
Proof.
  intros json_decode v K.
  destruct (to_json_True_dumps (ObjVector v)) as (d & s & Hd & _).
  cbn [Vector.to_json_True] in Hd.
  exists (VDict d). unfold Vector.to_json. rewrite Hd. split; [reflexivity|].
  destruct v as [[x y z] st en]. destruct K as (Kx & Ky & Kz).
  cbn [Vector.json_dict] in Hd.
  destruct (to_json_True_dumps st) as (sd & ? & Hs & _).
  destruct (to_json_True_dumps en) as (ed & ? & He & _).
  rewrite Hs, He in Hd. cbn [bind] in Hd. injection Hd as <-.
  apply Point_from_json_dict; try assumption; try reflexivity. discriminate.
Qed.

Lemma Point_from_json_reads_Vector_dict_ex :
  exists d,
    Vector.to_json (int_Vector 1 2 3) true = Ok d /\
    call_classmethod cls_Point (Point.from_json_def (fun _ => Ok VNone))
      [] [("json_dict", d)]
    = Ok (VObj (ObjPoint (float_Point (int_Point 1 2 3)))).
Proof.
  apply (Point_from_json_reads_Vector_dict (fun _ => Ok VNone) (int_Vector 1 2 3)).
  repeat split; vm_compute; discriminate.
Defined.

Lemma Point_from_json_call (json_decode : string -> result value) (v : value) :
  call_classmethod cls_Point (Point.from_json_def json_decode)
    [] [("json_dict", v)]
  = Point.from_json json_decode (VClass cls_Point) VNone v.
Proof. reflexivity. Qed.

(** X17.  [Point.from_json] with no argument, with an empty [dict] or with a
    [dict] without the key [x] raises [ValueError] with the message of the
    source; a value under [x] that is neither a number nor a string raises
    [TypeError], which is not caught. *)
Theorem Point_from_json_errors :
  forall (json_decode : string -> result value) (d : list (string * value)),
    d <> [] ->
    call_classmethod cls_Point (Point.from_json_def json_decode) [] []
    = Raise (Raised ValueError [Text "Illegal Point JSON format"]) /\
    call_classmethod cls_Point (Point.from_json_def json_decode)
      [] [("json_dict", VDict [])]
    = Raise (Raised ValueError [Text "Illegal Point JSON format"]) /\
    (lookup "x" d = None ->
     call_classmethod cls_Point (Point.from_json_def json_decode)
       [] [("json_dict", VDict d)]
     = Raise (Raised ValueError [Text "Illegal Point JSON format"])) /\
    (forall bad,
       lookup "x" d = Some bad ->
       is_number bad = false -> (forall s, bad <> VStr s) ->
       call_classmethod cls_Point (Point.from_json_def json_decode)
         [] [("json_dict", VDict d)]
       = Raise (Builtin TypeError)).
Proof.
  intros json_decode d Hd. split; [reflexivity|]. split; [reflexivity|].
  rewrite Point_from_json_call.
  unfold Point.from_json, load_json_dict. cbn [truthy bind].
  destruct d as [|kv d']; [contradiction|]. cbn [negb bind]. unfold subscript.
  split.
  - intros L. rewrite L. reflexivity.
  - intros bad L N S. rewrite L.
    destruct bad; try discriminate N; try reflexivity.
    now elim (S s).
Qed.

Lemma Point_from_json_errors_ex :
  call_classmethod cls_Point (Point.from_json_def (fun _ => Ok VNone))
    [] [("json_dict", VDict [("y", int 1)])]
  = Raise (Raised ValueError [Text "Illegal Point JSON format"]).
Proof.
  apply (Point_from_json_errors (fun _ => Ok VNone) [("y", int 1)]);
    [discriminate | reflexivity].
Defined.















(** ** Point and Vector from a string *)

(** *** The matcher finds only matches *)

Lemma nullable_matches (r : regex) : nullable r = true -> matches r "".
Proof.
  induction r; simpl; intros H; try discriminate.
  - constructor.
  - apply andb_true_iff in H as [H1 H2].
    apply (MSeq r1 r2 "" ""); auto.
  - apply orb_true_iff in H as [H|H]; [apply MAltL | apply MAltR]; auto.
  - constructor.
Qed.

Lemma deriv_matches (c : ascii) (r : regex) :
  forall s, matches (deriv c r) s -> matches r (String c s).
Proof.
  induction r; simpl; intros s M.
  - inversion M.
  - inversion M.
  - destruct (in_set items c) eqn:E; inversion M; subst. now constructor.
  - assert (L : forall t, matches (Seq (deriv c r1) r2) t ->
                          matches (Seq r1 r2) (String c t)).
    { intros t Mt. inversion Mt; subst.
      apply (MSeq r1 r2 (String c s1) s2); auto. }
    destruct (nullable r1) eqn:N.
    + inversion M; subst; [now apply L|].
      apply (MSeq r1 r2 "" (String c s)); [now apply nullable_matches | auto].
    + now apply L.
  - inversion M; subst; [apply MAltL | apply MAltR]; auto.
  - inversion M; subst.
    apply (MStarApp r (String c s1) s2); auto.
Qed.

Lemma re_match_sound (s : string) :
  forall r, re_match r s = true -> exists p q, s = p ++ q /\ matches r p.
Proof.
  induction s as [|c t IH]; intros r H; simpl in H.
  - rewrite orb_false_r in H. exists "", "". split; [reflexivity|].
    now apply nullable_matches.
  - apply orb_true_iff in H as [H|H].
    + exists "", (String c t). split; [reflexivity | now apply nullable_matches].
    + destruct (IH _ H) as (p & q & -> & M).
      exists (String c p), q. split; [reflexivity | now apply deriv_matches].
Qed.

(** *** What the pattern matches *)

Lemma matches_CharSet (items : list class_item) (s : string) :
  matches (CharSet items) s ->
  exists c, s = String c "" /\ in_set items c = true.
Proof. intros M. inversion M; subst. now exists c. Qed.

Lemma matches_Eps (s : string) : matches Eps s -> s = "".
Proof. intros M. now inversion M. Qed.

Lemma matches_Alt (r1 r2 : regex) (s : string) :
  matches (Alt r1 r2) s -> matches r1 s \/ matches r2 s.
Proof. intros M. inversion M; subst; auto. Qed.

Lemma matches_Seq (r1 r2 : regex) (s : string) :
  matches (Seq r1 r2) s ->
  exists s1 s2, s = s1 ++ s2 /\ matches r1 s1 /\ matches r2 s2.
Proof. intros M. inversion M; subst. now exists s1, s2. Qed.

Lemma matches_Lit (c : ascii) (s : string) :
  matches (Lit c) s -> s = String c "".
Proof.
  intros M. apply matches_CharSet in M as (d & -> & H).
  unfold in_set in H. simpl in H. rewrite orb_false_r in H.
  apply Ascii.eqb_eq in H. now subst.
Qed.

Lemma matches_digit (s : string) :
  matches digit s -> exists c, s = String c "" /\ is_digit c = true.
Proof.
  intros M. apply matches_CharSet in M as (d & -> & H). exists d.
  split; [reflexivity|]. unfold in_set in H. simpl in H.
  now rewrite orb_false_r in H.
Qed.

Lemma POINT_REGEX_shape (p : string) :
  matches POINT_REGEX p ->
  exists a b c, p = "(" ++ a ++ ";" ++ b ++ ";" ++ c ++ ")" /\
                matches NUM a /\ matches NUM b /\ matches NUM c.
Proof.
  unfold POINT_REGEX. intros M.
  apply matches_Seq in M as (o & r1 & -> & Mo & M). apply matches_Lit in Mo as ->.
  apply matches_Seq in M as (a & r2 & -> & Ma & M).
  apply matches_Seq in M as (s1 & r3 & -> & Ms1 & M). apply matches_Lit in Ms1 as ->.
  apply matches_Seq in M as (b & r4 & -> & Mb & M).
  apply matches_Seq in M as (s2 & r5 & -> & Ms2 & M). apply matches_Lit in Ms2 as ->.
  apply matches_Seq in M as (c & r6 & -> & Mc & M). apply matches_Lit in M as ->.
  now exists a, b, c.
Qed.

Lemma all_chars_app (P : ascii -> bool) (a b : string) :
  all_chars P (a ++ b) = all_chars P a && all_chars P b.
Proof. induction a; simpl; [reflexivity|]. now rewrite IHa, andb_assoc. Qed.

Lemma star_digits_inv (s : string) :
  matches (Star digit) s -> all_chars is_digit s = true.
Proof.
  intros M. remember (Star digit) as r eqn:E.
  induction M; try discriminate; [reflexivity|].
  injection E as ->. rewrite all_chars_app, IHM2 by reflexivity.
  apply matches_digit in M1 as (c & -> & Hc). simpl. now rewrite Hc.
Qed.

(** The three parts of a coordinate. *)
Lemma NUM_parts (a : string) :
  matches NUM a ->
  exists sg int_dot ds,
    a = sg ++ int_dot ++ ds /\
    (sg = "" \/ sg = "+" \/ sg = "-") /\
    (int_dot = "" \/ exists ds1, int_dot = ds1 ++ "." /\
                                 all_chars is_digit ds1 = true) /\
    all_chars is_digit ds = true /\ nonempty ds = true.
Proof.
  unfold NUM. intros M.
  apply matches_Seq in M as (sg & r & -> & Msg & M).
  apply matches_Seq in M as (o & ds & -> & Mo & Mds).
  apply matches_Seq in Mds as (d & t & -> & Md & Mt).
  apply matches_digit in Md as (c & -> & Hc).
  exists sg, o, (String c "" ++ t). split; [reflexivity|].
  split; [|split; [|split]].
  - apply matches_Alt in Msg as [Msg|Msg].
    + apply matches_CharSet in Msg as (g & -> & H). unfold in_set in H.
      simpl in H. rewrite orb_false_r in H.
      apply orb_true_iff in H as [H|H]; apply Ascii.eqb_eq in H; subst; auto.
    + apply matches_Eps in Msg. auto.
  - apply matches_Alt in Mo as [Mo|Mo].
    + right. apply matches_Seq in Mo as (ds1 & dt & -> & M1 & Mdot).
      apply matches_Lit in Mdot as ->. exists ds1. split; [reflexivity|].
      now apply star_digits_inv.
    + apply matches_Eps in Mo. auto.
  - simpl. now rewrite Hc, (star_digits_inv t Mt).
  - reflexivity.
Qed.

Lemma digit_is_num_char (c : ascii) : is_digit c = true -> is_num_char c = true.
Proof. unfold is_num_char. now intros ->. Qed.

Lemma NUM_chars (a : string) :
  matches NUM a -> all_chars is_num_char a = true /\ nonempty a = true.
Proof.
  intros M. apply NUM_parts in M as (sg & o & ds & -> & Hsg & Ho & Hds & Hne).
  assert (D : forall s, all_chars is_digit s = true ->
                        all_chars is_num_char s = true).
  { intros s. apply all_chars_impl, digit_is_num_char. }
  split.
  - rewrite !all_chars_app, (D ds Hds), andb_true_r.
    apply andb_true_iff. split.
    + destruct Hsg as [-> | [-> | ->]]; reflexivity.
    + destruct Ho as [-> | (ds1 & -> & H1)]; [reflexivity|].
      now rewrite all_chars_app, (D ds1 H1).
  - destruct ds as [|c t]; [discriminate|].
    destruct Hsg as [-> | [-> | ->]]; try reflexivity.
    destruct Ho as [-> | (ds1 & -> & H1)]; [reflexivity|].
    destruct ds1; reflexivity.
Qed.

Lemma num_char_cases (c : ascii) :
  is_num_char c = true ->
  is_digit c = true \/ c = "+"%char \/ c = "-"%char \/ c = "."%char.
Proof.
  unfold is_num_char. intros H.
  apply orb_true_iff in H as [H|H]; [|apply Ascii.eqb_eq in H; auto].
  apply orb_true_iff in H as [H|H]; [|apply Ascii.eqb_eq in H; auto].
  apply orb_true_iff in H as [H|H]; [|apply Ascii.eqb_eq in H; auto].
  auto.
Qed.

Lemma num_char_not (P : ascii -> bool) (c : ascii) :
  (forall d, is_digit d = true -> P d = true) ->
  P "+"%char = true -> P "-"%char = true -> P "."%char = true ->
  is_num_char c = true -> P c = true.
Proof.
  intros Hd Hp Hm Hdot H.
  destruct (num_char_cases c H) as [D | [-> | [-> | ->]]]; auto.
Qed.

Lemma NUM_all_chars (P : ascii -> bool) (a : string) :
  (forall d, is_digit d = true -> P d = true) ->
  P "+"%char = true -> P "-"%char = true -> P "."%char = true ->
  matches NUM a -> all_chars P a = true.
Proof.
  intros Hd Hp Hm Hdot M.
  apply (all_chars_impl is_num_char); [|apply (NUM_chars a M)].
  intros c. now apply num_char_not.
Qed.

(** *** [float()] on a coordinate *)

Lemma take_digits_app (ds : string) :
  all_chars is_digit ds = true ->
  forall rest acc len,
    match rest with String c _ => is_digit c = false | EmptyString => True end ->
    exists v, take_digits acc len (ds ++ rest)
              = (v, (len + String.length ds)%nat, rest).
Proof.
  induction ds as [|c t IH]; cbn [append String.length all_chars];
    intros H rest acc len Hr.
  - exists acc. rewrite Nat.add_0_r.
    destruct rest as [|c r]; [reflexivity|]. cbn [take_digits]. now rewrite Hr.
  - apply andb_true_iff in H as [Hc Ht]. cbn [take_digits]. rewrite Hc.
    destruct (IH Ht rest (10 * acc + digit_val c) (S len) Hr) as (v & E).
    exists v. rewrite E. do 2 f_equal. lia.
Qed.

Lemma take_digits_all (ds : string) :
  all_chars is_digit ds = true ->
  forall acc len,
    exists v, take_digits acc len ds = (v, (len + String.length ds)%nat, "").
Proof.
  intros H acc len. destruct (take_digits_app ds H "" acc len I) as (v & E).
  rewrite append_nil_r in E. now exists v.
Qed.

Lemma lower_not_letter (c : ascii) :
  is_digit c = true \/ c = "."%char ->
  Ascii.eqb (lower c) "i" = false /\ Ascii.eqb (lower c) "n" = false.
Proof.
  intros [H | ->]; [|split; reflexivity].
  assert (L : lower c = c).
  { unfold lower. unfold is_digit in H. apply andb_true_iff in H as [_ H].
    apply N.leb_le in H.
    replace (65 <=? code c)%N with false; [reflexivity|].
    symmetry. apply N.leb_gt. lia. }
  rewrite L. split; now apply digit_not.
Qed.

Lemma parse_inf_nan_body (neg : bool) (c : ascii) (t : string) :
  is_digit c = true \/ c = "."%char ->
  parse_inf_nan neg (String c t) = None.
Proof.
  intros H. destruct (lower_not_letter c H) as [Hi Hn].
  unfold parse_inf_nan. cbn [lower_string String.eqb]. now rewrite Hi, Hn.
Qed.

Lemma take_sign_body (c : ascii) (t : string) :
  is_digit c = true \/ c = "."%char ->
  take_sign (String c t) = (false, String c t).
Proof.
  intros [H | ->]; [|reflexivity]. unfold take_sign.
  now rewrite (digit_not c "-" eq_refl H), (digit_not c "+" eq_refl H).
Qed.

Lemma parse_decimal_body (o ds : string) :
  (o = "" \/ exists ds1, o = ds1 ++ "." /\ all_chars is_digit ds1 = true) ->
  all_chars is_digit ds = true -> nonempty ds = true ->
  exists m e10, parse_decimal (o ++ ds) = Some (m, e10).
Proof.
  intros Ho Hds Hne. unfold parse_decimal.
  destruct Ho as [-> | (ds1 & -> & H1)].
  - destruct (take_digits_all ds Hds 0 0%nat) as (v & E).
    cbn [append]. rewrite E. cbn [Nat.add].
    destruct ds; [discriminate|]. cbn [String.length parse_exponent].
    now exists v, (0 - Z.of_nat 0).
  - rewrite append_assoc.
    destruct (take_digits_app ds1 H1 ("." ++ ds) 0 0%nat eq_refl) as (v1 & E1).
    rewrite E1. cbn [append Ascii.eqb Bool.eqb]. 
    destruct (take_digits_all ds Hds v1 0%nat) as (v & E). rewrite E.
    destruct ds; [discriminate|]. cbn [String.length parse_exponent Nat.add].
    rewrite Nat.add_succ_r. now eexists _, _.
Qed.

(** X22.  [float()] has a value on every string that matches the pattern of one
    coordinate: once [POINT_REGEX] has matched and the string is cut in
    three, the conversions cannot fail. *)
Theorem NUM_float_of_str :
  forall a : string, matches NUM a -> exists f, float_of_str a = Ok f.
Proof.
  intros a M. unfold float_of_str.
  rewrite strip_no_space
    by (apply (NUM_all_chars _ a); [apply digit_not_space | reflexivity ..
                                    | exact M]).
  rewrite drop_underscores_none;
    [| apply (NUM_all_chars _ a);
       [apply digit_not_underscore | reflexivity .. | exact M]
     | reflexivity].
  apply NUM_parts in M as (sg & o & ds & -> & Hsg & Ho & Hds & Hne).
  destruct (parse_decimal_body o ds Ho Hds Hne) as (m & e10 & P).
  assert (B : exists c t, o ++ ds = String c t /\
                          (is_digit c = true \/ c = "."%char)).
  { destruct ds as [|d dt]; [discriminate|]. simpl in Hds.
    apply andb_true_iff in Hds as [Hd _].
    destruct Ho as [-> | (ds1 & -> & H1)].
    - exists d, dt. auto.
    - destruct ds1 as [|d1 t1].
      + eexists _, _. split; [reflexivity | auto].
      + simpl in H1. apply andb_true_iff in H1 as [H1 _].
        eexists _, _. split; [reflexivity | auto]. }
  destruct B as (c & t & E & Hc).
  assert (S : exists neg, take_sign (sg ++ o ++ ds) = (neg, o ++ ds)).
  { destruct Hsg as [-> | [-> | ->]].
    - exists false. cbn [append]. rewrite E. now apply take_sign_body.
    - now exists false.
    - now exists true. }
  destruct S as (neg & ->). cbv beta iota. rewrite P, E.
  rewrite (parse_inf_nan_body neg c t Hc). now eexists.
Qed.

Lemma NUM_float_of_str_ex : exists f, float_of_str "-1.5" = Ok f.
Proof.
  apply (NUM_float_of_str "-1.5").
  apply (MSeq _ _ "-" "1.5"); [apply MAltL; constructor; reflexivity|].
  apply (MSeq _ _ "1." "5").
  - apply MAltL. apply (MSeq _ _ "1" ".").
    + apply (MStarApp _ "1" ""); constructor. reflexivity.
    + constructor. reflexivity.
  - apply (MSeq _ _ "5" ""); constructor. reflexivity.
Defined.

(** *** Cutting a string that starts with a Point *)

Lemma re_split_head_nonempty (seps : list class_item) (c : ascii) (t : string) :
  in_set seps c = false ->
  exists piece rest, re_split seps (String c t) = String c piece :: rest.
Proof.
  intros H. cbn [re_split]. rewrite H.
  destruct (re_split seps t) as [|p r]; eexists _, _; reflexivity.
Qed.

Lemma filter_split_nil (seps : list class_item) (q : string) :
  filter nonempty (re_split seps q) = [] <-> all_chars (in_set seps) q = true.
Proof.
  induction q as [|c t IH]; [now split|].
  cbn [all_chars]. destruct (in_set seps c) eqn:E.
  - cbn [re_split]. rewrite E. cbn [filter nonempty andb]. exact IH.
  - destruct (re_split_head_nonempty seps c t E) as (p & r & ->).
    cbn [filter nonempty andb]. split; discriminate.
Qed.

Lemma split_after_point (a b c q : string) :
  matches NUM a -> matches NUM b -> matches NUM c ->
  filter nonempty
    (re_split POINT_SPLITTERS ("(" ++ a ++ ";" ++ b ++ ";" ++ c ++ ")" ++ q))
  = a :: b :: c :: filter nonempty (re_split POINT_SPLITTERS q).
Proof.
  intros Ma Mb Mc.
  assert (S : forall n, matches NUM n ->
                        all_chars (fun c => negb (in_set POINT_SPLITTERS c)) n
                        = true).
  { intros n M. apply (NUM_all_chars _ n);
      [apply digit_not_splitter | reflexivity .. | exact M]. }
  cbn [append re_split]. change (in_set POINT_SPLITTERS "(") with true.
  cbv iota.
  rewrite (re_split_piece _ _ ";"%char _ (S a Ma) eq_refl).
  rewrite (re_split_piece _ _ ";"%char _ (S b Mb) eq_refl).
  rewrite (re_split_piece _ _ ")"%char _ (S c Mc) eq_refl).
  cbn [filter nonempty].
  now rewrite (proj2 (NUM_chars a Ma)), (proj2 (NUM_chars b Mb)),
    (proj2 (NUM_chars c Mc)).
Qed.

Lemma Point_from_str_call (s : string) :
  call_classmethod cls_Point Point.from_str_def [VStr s] []
  = Point.from_str (VClass cls_Point) (VStr s).
Proof. reflexivity. Qed.

(** X23.  [Point.from_str] returns exactly on the strings made of a parenthesis,
    three coordinates separated by semicolons, a parenthesis and then nothing
    but separators; the result is the Point of the three floats. *)
Theorem Point_from_str_accepts_exactly :
  forall (s : string) (r : value),
    call_classmethod cls_Point Point.from_str_def [VStr s] [] = Ok r <->
    exists a b c t fa fb fc,
      s = "(" ++ a ++ ";" ++ b ++ ";" ++ c ++ ")" ++ t /\
      matches NUM a /\ matches NUM b /\ matches NUM c /\
      separators_only t = true /\
      float_of_str a = Ok fa /\ float_of_str b = Ok fb /\
      float_of_str c = Ok fc /\
      r = VObj (ObjPoint (MkPoint (PyFloat fa) (PyFloat fb) (PyFloat fc))).
Proof.
  intros s r. rewrite Point_from_str_call. unfold Point.from_str. split.
  - destruct (re_match POINT_REGEX s) eqn:R; [|discriminate].
    apply re_match_sound in R as (p & q & -> & M).
    apply POINT_REGEX_shape in M as (a & b & c & -> & Ma & Mb & Mc).
    cbn [negb]. rewrite !append_assoc.
    change (((")" ++ "") ++ q)) with (")" ++ q).
    rewrite (split_after_point a b c q Ma Mb Mc).
    destruct (filter nonempty (re_split POINT_SPLITTERS q)) eqn:F;
      [|discriminate].
    apply filter_split_nil in F.
    destruct (NUM_float_of_str a Ma) as (fa & Fa).
    destruct (NUM_float_of_str b Mb) as (fb & Fb).
    destruct (NUM_float_of_str c Mc) as (fc & Fc).
    unfold py_float. rewrite Fa, Fb, Fc. cbn [bind]. intros [= <-].
    exists a, b, c, q, fa, fb, fc. repeat split; assumption.
  - intros (a & b & c & t & fa & fb & fc & -> & Ma & Mb & Mc & St & Fa & Fb
            & Fc & ->).
    assert (R : re_match POINT_REGEX
                  ("(" ++ a ++ ";" ++ b ++ ";" ++ c ++ ")" ++ t) = true).
    { pose proof (re_match_prefix ("(" ++ a ++ ";" ++ b ++ ";" ++ c ++ ")") t
                    POINT_REGEX (POINT_REGEX_matches a b c Ma Mb Mc)) as H.
      rewrite !append_assoc in H. exact H. }
    rewrite R. cbn [negb]. rewrite (split_after_point a b c t Ma Mb Mc).
    rewrite (proj2 (filter_split_nil POINT_SPLITTERS t) St).
    unfold py_float. rewrite Fa, Fb, Fc. reflexivity.
Qed.

(** X24.  Text other than separators after the closing parenthesis makes
    [Point.from_str] fail at the unpacking, with a [ValueError] of the
    interpreter rather than the message of the source. *)
Theorem Point_from_str_trailing_text :
  forall a b c t : string,
    matches NUM a -> matches NUM b -> matches NUM c ->
    separators_only t = false ->
    call_classmethod cls_Point Point.from_str_def
      [VStr ("(" ++ a ++ ";" ++ b ++ ";" ++ c ++ ")" ++ t)] []
    = Raise (Builtin ValueError).
Proof.
  intros a b c t Ma Mb Mc St. rewrite Point_from_str_call. unfold Point.from_str.
  assert (R : re_match POINT_REGEX
                ("(" ++ a ++ ";" ++ b ++ ";" ++ c ++ ")" ++ t) = true).
  { pose proof (re_match_prefix ("(" ++ a ++ ";" ++ b ++ ";" ++ c ++ ")") t
                  POINT_REGEX (POINT_REGEX_matches a b c Ma Mb Mc)) as H.
    rewrite !append_assoc in H. exact H. }
  rewrite R. cbn [negb]. rewrite (split_after_point a b c t Ma Mb Mc).
  destruct (filter nonempty (re_split POINT_SPLITTERS t)) eqn:F; [|reflexivity].
  apply filter_split_nil in F. unfold separators_only in St. congruence.
Qed.

Lemma Point_from_str_trailing_text_ex :
  call_classmethod cls_Point Point.from_str_def [VStr "(1;2;3) "] []
  = Raise (Builtin ValueError).
Proof.
  apply (Point_from_str_trailing_text (str_of_Z 1) (str_of_Z 2) (str_of_Z 3) " ");
    try apply NUM_matches_str. reflexivity.
Defined.

Lemma float_of_str_outcome (s : string) :
  (exists f, float_of_str s = Ok f) \/ float_of_str s = Raise (Builtin ValueError).
Proof.
  unfold float_of_str.
  destruct (drop_underscores None (strip s)) as [t|]; [|now right].
  destruct (take_sign t) as [neg u].
  destruct (parse_inf_nan neg u) as [f|]; [left; now exists f|].
  destruct (parse_decimal u) as [[m e10]|]; [left; now eexists | now right].
Qed.

Lemma Point_from_str_outcome (s : string) :
  (exists fa fb fc,
     call_classmethod cls_Point Point.from_str_def [VStr s] []
     = Ok (VObj (ObjPoint (MkPoint (PyFloat fa) (PyFloat fb) (PyFloat fc))))) \/
  (exists e, call_classmethod cls_Point Point.from_str_def [VStr s] [] = Raise e /\
             kind_of e = ValueError).
Proof.
  rewrite Point_from_str_call. unfold Point.from_str.
  destruct (re_match POINT_REGEX s); cbn [negb]; [|right; now eexists].
  destruct (filter nonempty (re_split POINT_SPLITTERS s)) as [|x [|y [|z [|w l]]]];
    try (right; now eexists).
  unfold py_float.
  destruct (float_of_str_outcome x) as [(fx & ->) | ->]; [|right; now eexists].
  destruct (float_of_str_outcome y) as [(fy & ->) | ->]; [|right; now eexists].
  destruct (float_of_str_outcome z) as [(fz & ->) | ->]; [|right; now eexists].
  left. now exists fx, fy, fz.
Qed.

(** *** Vector *)

Lemma Vector_from_str_call (s : string) :
  call_classmethod cls_Vector Vector.from_str_def [VStr s] []
  = Vector.from_str (VClass cls_Vector) (VStr s).
Proof. reflexivity. Qed.

Lemma Vector_of_float_Points (a b c a' b' c' : spec_float) :
  call_value (VClass cls_Vector) []
    [("start_point", VObj (ObjPoint (MkPoint (PyFloat a) (PyFloat b) (PyFloat c))));
     ("end_point", VObj (ObjPoint (MkPoint (PyFloat a') (PyFloat b') (PyFloat c'))))]
  = Ok (VObj (ObjVector
          (MkVector (MkPoint (PyFloat (SFsub prec emax a' a))
                             (PyFloat (SFsub prec emax b' b))
                             (PyFloat (SFsub prec emax c' c)))
                    (ObjPoint (MkPoint (PyFloat a) (PyFloat b) (PyFloat c)))
                    (ObjPoint (MkPoint (PyFloat a') (PyFloat b') (PyFloat c')))))).
Proof. reflexivity. Qed.

(** X25.  [Vector.from_str] of a string either returns a Vector or raises
    [ValueError] with the message for Vectors: no error of the parsing of a
    Point comes out as it is. *)
Theorem Vector_from_str_outcome :
  forall s : string,
    (exists v, call_classmethod cls_Vector Vector.from_str_def [VStr s] []
               = Ok (VObj (ObjVector v))) \/
    call_classmethod cls_Vector Vector.from_str_def [VStr s] []
    = Raise (Raised ValueError [Text "Illegal Vector string format"]).
Proof.
  intros s. rewrite Vector_from_str_call. unfold Vector.from_str.
  destruct (str_split ":" s) as [|x [|y [|z l]]]; try (right; reflexivity).
  destruct (Point_from_str_outcome x) as [(a & b & c & ->) | (e & -> & K)].
  - destruct (Point_from_str_outcome y) as [(a' & b' & c' & ->) | (e & -> & K)].
    + left. cbn [bind except_reraise fst snd].
      rewrite Vector_of_float_Points. now eexists.
    + right. cbn [bind except_reraise]. rewrite K. reflexivity.
  - right. cbn [bind except_reraise]. rewrite K. reflexivity.
Qed.

Lemma re_split_none (seps : list class_item) (a : string) :
  all_chars (fun c => negb (in_set seps c)) a = true -> re_split seps a = [a].
Proof.
  induction a as [|c t IH]; cbn [all_chars re_split]; [reflexivity|].
  intros H. apply andb_true_iff in H as [Hc Ht]. apply negb_true_iff in Hc.
  now rewrite Hc, (IH Ht).
Qed.

Lemma Point_str_chars (P : ascii -> bool) (a b c : Z) :
  P "("%char = true -> P ";"%char = true -> P ")"%char = true ->
  P "-"%char = true -> (forall d, is_digit d = true -> P d = true) ->
  all_chars P (Point.__str__ (int_Point a b c)) = true.
Proof.
  intros Ho Hs Hc Hm Hd. unfold Point.__str__.
  cbn [point_coord int_Point str_of_number].
  rewrite !all_chars_app, !(str_of_Z_chars P _ Hm Hd). cbn [all_chars].
  now rewrite Ho, Hs, Hc.
Qed.

Lemma digit_not_colon (c : ascii) :
  is_digit c = true -> negb (in_set [One ":"] c) = true.
Proof.
  intros H. unfold in_set. simpl. now rewrite (digit_not c ":" eq_refl H).
Qed.

(** X26.  A Vector between two Points of integers up to 2^53 in absolute value
    is read back from its string as a Vector between the Points of the same
    floats, equal to it. *)
Theorem Vector_from_str_of_str :
  forall (base : point) (a b c a' b' c' : Z),
    Z.abs a <= 2 ^ 53 -> Z.abs b <= 2 ^ 53 -> Z.abs c <= 2 ^ 53 ->
    Z.abs a' <= 2 ^ 53 -> Z.abs b' <= 2 ^ 53 -> Z.abs c' <= 2 ^ 53 ->
    let v := MkVector base (ObjPoint (int_Point a b c))
                      (ObjPoint (int_Point a' b' c')) in
    exists base',
      call_classmethod cls_Vector Vector.from_str_def
        [VStr (Vector.__str__ v)] []
      = Ok (VObj (ObjVector
              (MkVector base' (ObjPoint (float_Point (int_Point a b c)))
                        (ObjPoint (float_Point (int_Point a' b' c')))))) /\
      Vector.__eq__
        (MkVector base' (ObjPoint (float_Point (int_Point a b c)))
                  (ObjPoint (float_Point (int_Point a' b' c'))))
        (VObj (ObjVector v)) = true.
Proof.
  intros base a b c a' b' c' Ha Hb Hc Ha' Hb' Hc' v.
  eexists. split.
  - rewrite Vector_from_str_call. unfold Vector.from_str, v.
    cbn [Vector.__str__ Vector.str]. unfold str_split.
    change (":" ++ Point.__str__ (int_Point a' b' c'))
      with (String ":" (Point.__str__ (int_Point a' b' c'))).
    rewrite (re_split_piece [One ":"] _ ":"%char _
               (Point_str_chars _ a b c eq_refl eq_refl eq_refl eq_refl
                  digit_not_colon) eq_refl).
    rewrite (re_split_none [One ":"] _
               (Point_str_chars _ a' b' c' eq_refl eq_refl eq_refl eq_refl
                  digit_not_colon)).
    rewrite !Point_from_str_int. cbn [bind except_reraise fst snd].
    rewrite Vector_of_float_Points. reflexivity.
  - unfold v. cbn [Vector.__eq__ Vector.eq_op].
    unfold Point.__eq__, coord_of, float_Point.
    cbn [as_point point_coord int_Point as_float num_eqb].
    now rewrite !int_float_eqb_exact.
Qed.

Lemma Vector_from_str_of_str_ex :
  exists base',
    call_classmethod cls_Vector Vector.from_str_def
      [VStr (Vector.__str__ (int_Vector 1 2 3))] []
    = Ok (VObj (ObjVector
            (MkVector base' (ObjPoint (float_Point (int_Point 0 0 0)))
                      (ObjPoint (float_Point (int_Point 1 2 3)))))) /\
    Vector.__eq__
      (MkVector base' (ObjPoint (float_Point (int_Point 0 0 0)))
                (ObjPoint (float_Point (int_Point 1 2 3))))
      (VObj (ObjVector (int_Vector 1 2 3))) = true.
Proof.
  apply (Vector_from_str_of_str (int_Point 1 2 3) 0 0 0 1 2 3);
    vm_compute; discriminate.
Defined.





